(** * Coordinate maps for rendered plots: [shiny/render/_coordmap.py]

    A shallow embedding of the coordinate-map extraction ([get_coordmap],
    [get_coordmap_panel]) and of its plotnine enrichment
    ([get_coordmap_plotnine], [_get_mappings], [_is_log_trans],
    [_is_reverse_trans]), with the properties its description states.

    Numbers are what the Python code computes with: floats are IEEE 754
    binary64 values (Rocq's primitive floats, with their own subtraction,
    multiplication and negation), integers are unbounded.  Dictionaries
    with string keys are finite maps, lists updated by index are lists with
    lookup and insert, exceptions are the error side of a result type.

    The objects of matplotlib and plotnine are records of what the module
    reads of them, typed as the module annotates them.  The plot
    specification and the figure the caller passes to
    [get_coordmap_plotnine] live in a store, so that the copy the function
    makes and the object the build step updates are told apart from the
    caller's. *)

From Stdlib Require Import ZArith String Ascii.
From Stdlib Require Import Floats.PrimFloat Floats.SpecFloat Floats.FloatOps.
From stdpp Require Import base option list gmap strings pretty.

Open Scope Z_scope.

(** ** Python values and exceptions *)

(** The dynamically typed values the module moves around: [None], integers
    (Python's and numpy's), floats and strings. *)
Inductive pyval : Type :=
  | PyNone
  | PyInt (z : Z)
  | PyFloat (f : float)
  | PyStr (s : string).

(** The exceptions the module's own operations can raise.  Python has one
    [KeyError]; the model keeps apart the one of a dictionary subscript
    ([DictKeyError], with the missing key) and the one of a data frame
    column lookup ([ColumnKeyError]).  [BuildError] stands for whatever the
    plot's build step raises, [InvalidReference] for the use of a reference
    that names no object of the store (the references a caller holds do
    name one). *)
Inductive exn : Type :=
  | DictKeyError (key : string)
  | ColumnKeyError (col : pyval)
  | IndexError
  | TypeError
  | ValueError
  | OverflowError
  | AttributeError (attr : string)
  | InvalidReference
  | BuildError (msg : string).

Inductive result (A : Type) : Type :=
  | Ok (a : A)
  | Raise (e : exn).
Arguments Ok {A} a.
Arguments Raise {A} e.

(** [result] is a monad; the instances give stdpp's [x ← r; k] notation. *)
#[export] Instance result_ret : MRet result := λ A a, Ok a.
#[export] Instance result_bind : MBind result := λ A B k r,
  match r with
  | Ok a => k a
  | Raise e => Raise e
  end.

(** ** The rendering engine's objects (matplotlib) *)

(** The array [transform] returns for the four-element input
    [[left, bottom, right, top]]: entries 0 to 3. *)
Record NDArray4 : Type := mkNDArray4 {
  ar0 : float; ar1 : float; ar2 : float; ar3 : float
}.

(** An axis scale: its [name], and for a log scale its [base] and the
    forward transform [_transform.transform]. *)
Record ScaleBase : Type := {
  scale_name : string;
  scale_base : pyval;
  scale_transform : float → float
}.

(** [spspec.rowspan.start] and [spspec.colspan.start]. *)
Record SubplotSpec : Type := {
  rowspan_start : Z;
  colspan_start : Z
}.

(** An axes object, as [get_coordmap_panel] reads it and as the source
    types what it reads: [get_subplotspec()] is a [SubplotSpec], the limits
    are pairs of floats, and [transData.transform] of the four-element list
    is an array of (at least) four floats. *)
Record Axes : Type := {
  get_subplotspec : SubplotSpec;
  get_xlim : float * float;
  get_ylim : float * float;
  (** [axes.transData.transform] on [[x0, y0, x1, y1]] *)
  transData_transform : float → float → float → float → NDArray4;
  (** [axes.xaxis._scale] and [axes.yaxis._scale] *)
  xaxis_scale : ScaleBase;
  yaxis_scale : ScaleBase
}.

(** A figure: its size in inches (width, height), its resolution, its
    axes in order. *)
Record Figure : Type := {
  get_size_inches : float * float;
  get_dpi : float;
  get_axes : list Axes
}.

(** ** The coordinate map *)

Record CoordmapDims : Type := {
  width : float;
  height : float
}.

(** [CoordmapPanelDomain] and [CoordmapPanelRange] have the same four keys. *)
Record Rect : Type := {
  left : float;
  right : float;
  bottom : float;
  top : float
}.
Abbreviation CoordmapPanelDomain := Rect (only parsing).
Abbreviation CoordmapPanelRange := Rect (only parsing).

Record CoordmapPanelLog : Type := {
  log_x : pyval;
  log_y : pyval
}.

(** [panel_vars] is a key the extractor leaves out: [None] is its absence. *)
Record CoordmapPanel : Type := {
  panel : Z;
  row : Z;
  col : Z;
  domain : CoordmapPanelDomain;
  range : CoordmapPanelRange;
  log : CoordmapPanelLog;
  mapping : gmap string pyval;
  panel_vars : option (gmap string float)
}.

Record Coordmap : Type := {
  panels : list CoordmapPanel;
  dims : CoordmapDims
}.

(** Assignments to one key of a dictionary. *)
Definition set_left (v : float) (d : Rect) : Rect :=
  {| left := v; right := right d; bottom := bottom d; top := top d |}.
Definition set_right (v : float) (d : Rect) : Rect :=
  {| left := left d; right := v; bottom := bottom d; top := top d |}.
Definition set_bottom (v : float) (d : Rect) : Rect :=
  {| left := left d; right := right d; bottom := v; top := top d |}.
Definition set_top (v : float) (d : Rect) : Rect :=
  {| left := left d; right := right d; bottom := bottom d; top := v |}.
Definition set_log_x (v : pyval) (l : CoordmapPanelLog) : CoordmapPanelLog :=
  {| log_x := v; log_y := log_y l |}.
Definition set_log_y (v : pyval) (l : CoordmapPanelLog) : CoordmapPanelLog :=
  {| log_x := log_x l; log_y := v |}.

(** ** [get_coordmap_panel] *)

Definition get_coordmap_panel (axes : Axes) (panel_num : Z) (height : float)
  : CoordmapPanel :=
  let spspec := get_subplotspec axes in
  let domain_xlim := get_xlim axes in
  let domain_ylim := get_ylim axes in
  (* Data coordinates of plotting area *)
  let domain :=
    {| left := fst domain_xlim; right := snd domain_xlim;
       bottom := fst domain_ylim; top := snd domain_ylim |} in
  (* Pixel coordinates of plotting area *)
  let range_ar :=
    transData_transform axes
      (left domain) (bottom domain) (right domain) (top domain) in
  let range :=
    {| left := ar0 range_ar;
       right := ar2 range_ar;
       bottom := (height - ar1 range_ar)%float;
       top := (height - ar3 range_ar)%float |} in
  let log := {| log_x := PyNone; log_y := PyNone |} in
  let xaxis := xaxis_scale axes in
  let '(log, domain) :=
    if String.eqb (scale_name xaxis) "log" then
      let log := set_log_x (scale_base xaxis) log in
      let domain := set_left (scale_transform xaxis (left domain)) domain in
      let domain := set_right (scale_transform xaxis (right domain)) domain in
      (log, domain)
    else (log, domain) in
  let yaxis := yaxis_scale axes in
  let '(log, domain) :=
    if String.eqb (scale_name yaxis) "log" then
      let log := set_log_y (scale_base yaxis) log in
      let domain := set_top (scale_transform yaxis (top domain)) domain in
      let domain := set_bottom (scale_transform yaxis (bottom domain)) domain in
      (log, domain)
    else (log, domain) in
  {| panel := panel_num;
     row := rowspan_start spspec + 1;
     col := colspan_start spspec + 1;
     domain := domain;
     range := range;
     log := log;
     mapping := <["y" := PyNone]> (<["x" := PyNone]> ∅);
     panel_vars := None |}.

(** ** [get_coordmap] *)

(** Python's [enumerate]. *)
Definition enumerate {A} (l : list A) : list (nat * A) := imap pair l.

Definition get_coordmap (fig : Figure) : option Coordmap :=
  let dims_ar :=
    ((fst (get_size_inches fig) * get_dpi fig)%float,
     (snd (get_size_inches fig) * get_dpi fig)%float) in
  let dims := {| width := fst dims_ar; height := snd dims_ar |} in
  let all_axes := get_axes fig in
  let panels :=
    foldl (λ panels '(i, axes),
             let panel := get_coordmap_panel axes (Z.of_nat i + 1) (height dims) in
             panels ++ [panel])
          [] (enumerate all_axes) in
  Some {| panels := panels; dims := dims |}.

(** ** Python operations the enrichment uses *)

(** [d[key]] for a dictionary with string keys. *)
Definition dict_getitem {V} (d : gmap string V) (key : string) : result V :=
  match d !! key with
  | Some v => Ok v
  | None => Raise (DictKeyError key)
  end.

(** [l[i]] for a list: a negative index counts from the end. *)
Definition list_getitem {A} (l : list A) (i : Z) : result A :=
  let n := Z.of_nat (length l) in
  let j := if i <? 0 then i + n else i in
  if (0 <=? j) && (j <? n) then
    match l !! Z.to_nat j with
    | Some a => Ok a
    | None => Raise IndexError
    end
  else Raise IndexError.

(** [l[i]] when the index is a value: only an integer indexes a list. *)
Definition py_list_getitem {A} (l : list A) (i : pyval) : result A :=
  match i with
  | PyInt z => list_getitem l z
  | _ => Raise TypeError
  end.

(** [v - 1]. *)
Definition py_sub1 (v : pyval) : result pyval :=
  match v with
  | PyInt z => Ok (PyInt (z - 1))
  | PyFloat f => Ok (PyFloat (f - 1)%float)
  | PyNone | PyStr _ => Raise TypeError
  end.

(** The float nearest to an integer (ties to even), infinite when the
    integer is out of range. *)
Definition Z_to_float (z : Z) : float :=
  SF2Prim (binary_normalize prec emax z 0 false).

(** Exact comparison of a float with an integer, as Python's [==] does it. *)
Definition float_eq_Z (f : float) (n : Z) : bool :=
  match Prim2SF f with
  | S754_zero _ => n =? 0
  | S754_finite s m e =>
      let v := if s then Z.neg m else Z.pos m in
      if 0 <=? e then v * 2 ^ e =? n else v =? n * 2 ^ (- e)
  | S754_infinity _ | S754_nan => false
  end.

(** [v == n] for an integer [n]. *)
Definition py_eq_int (v : pyval) (n : Z) : bool :=
  match v with
  | PyInt z => z =? n
  | PyFloat f => float_eq_Z f n
  | PyNone | PyStr _ => false
  end.

(** [f"panelvar{n}"]. *)
Definition panelvar (n : Z) : string := "panelvar" +:+ pretty n.

(** *** Data frames

    A data frame with string column labels: each label with its column. *)
Abbreviation DataFrame := (gmap string (list pyval)) (only parsing).

(** [df[col]]: the column, or [KeyError]. *)
Definition df_getitem (df : DataFrame) (col : pyval) : result (list pyval) :=
  match col with
  | PyStr s =>
      match df !! s with
      | Some c => Ok c
      | None => Raise (ColumnKeyError col)
      end
  | _ => Raise (ColumnKeyError col)
  end.

(** [series == n]: the boolean mask. *)
Definition series_eq (c : list pyval) (n : Z) : list bool :=
  (λ v, py_eq_int v n) <$> c.

(** The entries of a column a mask selects. *)
Fixpoint select_mask (mask : list bool) (c : list pyval) : list pyval :=
  match mask, c with
  | b :: mask, v :: c => if b then v :: select_mask mask c else select_mask mask c
  | _, _ => []
  end.

(** [df.loc[mask]]: the rows the mask selects, in every column. *)
Definition df_loc (df : DataFrame) (mask : list bool) : DataFrame :=
  select_mask mask <$> df.

(** [series.iloc[0]]. *)
Definition iloc0 (c : list pyval) : result pyval :=
  match c with
  | v :: _ => Ok v
  | [] => Raise IndexError
  end.

(** ** The declarative layer's objects (plotnine) *)

(** A transform object: the name of its class, [type(trans).__name__], and
    its [base] attribute, [None] when the class has none. *)
Record trans : Type := {
  trans_type_name : string;
  trans_base : option pyval
}.

(** A scale, with its [_trans]. *)
Record scale : Type := {
  _trans : trans
}.

(** The coordinate system: the name of its class, and the attributes
    [trans_x] and [trans_y] where it has them ([hasattr]). *)
Record coord_t : Type := {
  coord_type_name : string;
  trans_x : option trans;
  trans_y : option trans
}.

(** The facet: the name of its class, and the attributes [cols], [rows]
    and [vars] of the classes that have them. *)
Record facet_t : Type := {
  facet_type_name : string;
  cols : option (list string);
  rows : option (list string);
  vars : option (list string)
}.

Module Layout.
Record t : Type := {
  layout : DataFrame;
  panel_scales_x : list scale;
  panel_scales_y : list scale;
  coord : coord_t;
  facet : facet_t
}.
End Layout.

Module ggplot.
Record t : Type := {
  mapping : gmap string pyval;
  layout : Layout.t
}.
End ggplot.
Abbreviation PlotnineFigure := ggplot.t (only parsing).

(** [obj.attr] for an attribute the object may lack. *)
Definition getattr {A} (attr : string) (o : option A) : result A :=
  match o with
  | Some a => Ok a
  | None => Raise (AttributeError attr)
  end.

(** ** [_is_log_trans] and [_is_reverse_trans] *)

(** [".*" suffix] against the whole of [s]: [.] is any character but a
    newline. *)
Fixpoint fullmatch_any_then (suffix s : string) : bool :=
  String.eqb s suffix ||
  match s with
  | EmptyString => false
  | String c rest => negb (Ascii.eqb c "010"%char) && fullmatch_any_then suffix rest
  end.

(** The strings [.*] matches: those without a newline. *)
Fixpoint no_newline (s : string) : bool :=
  match s with
  | EmptyString => true
  | String c rest => negb (Ascii.eqb c "010"%char) && no_newline rest
  end.

(** [re.fullmatch("log.*_trans", name)]. *)
Definition fullmatch_log_trans (name : string) : bool :=
  match name with
  | String "l" (String "o" (String "g" rest)) => fullmatch_any_then "_trans" rest
  | _ => false
  end.

Definition _is_log_trans (trans : trans) : bool :=
  fullmatch_log_trans (trans_type_name trans).

Definition _is_reverse_trans (trans : trans) : bool :=
  String.eqb (trans_type_name trans) "reverse_trans".

(** [hasattr(coord, "trans_x") and _is_log_trans(coord.trans_x)], for the
    attribute [trans_x] (or [trans_y]) of the coordinate system. *)
Definition has_log_trans (t : option trans) : bool :=
  match t with
  | Some t => _is_log_trans t
  | None => false
  end.

(** ** [_get_mappings] *)

Definition _get_mappings (p : PlotnineFigure) : result (gmap string pyval) :=
  let mapping : gmap string pyval := <["y" := PyNone]> (<["x" := PyNone]> ∅) in
  mapping ←
    match ggplot.mapping p !! "x" with
    | Some _ => v ← dict_getitem (ggplot.mapping p) "x"; Ok (<["x" := v]> mapping)
    | None => Ok mapping
    end;
  mapping ←
    match ggplot.mapping p !! "y" with
    | Some _ => v ← dict_getitem (ggplot.mapping p) "y"; Ok (<["y" := v]> mapping)
    | None => Ok mapping
    end;
  mapping ←
    (if String.eqb (coord_type_name (Layout.coord (ggplot.layout p))) "coord_flip" then
       my ← dict_getitem mapping "y";
       mx ← dict_getitem mapping "x";
       Ok (<["y" := mx]> (<["x" := my]> mapping))
     else Ok mapping);
  let facet := Layout.facet (ggplot.layout p) in
  (* The names (not values) of panel vars are the same across all panels. *)
  if String.eqb (facet_type_name facet) "facet_grid" then
    let n := 1 in
    facet_cols ← getattr "cols" (cols facet);
    '(mapping, n) ←
      (if 0 <? Z.of_nat (length facet_cols) then
         c ← list_getitem facet_cols 0;
         Ok (<[panelvar n := PyStr c]> mapping, n + 1)
       else Ok (mapping, n));
    facet_rows ← getattr "rows" (rows facet);
    if 0 <? Z.of_nat (length facet_rows) then
      r ← list_getitem facet_rows 0;
      Ok (<[panelvar n := PyStr r]> mapping)
    else Ok mapping
  else if String.eqb (facet_type_name facet) "facet_wrap" then
    facet_vars ← getattr "vars" (vars facet);
    v ← list_getitem facet_vars 0;
    Ok (<["panelvar1" := PyStr v]> mapping)
  else Ok mapping.

(** ** [get_coordmap_plotnine] *)

Definition set_mapping (m : gmap string pyval) (pnl : CoordmapPanel) : CoordmapPanel :=
  {| panel := panel pnl; row := row pnl; col := col pnl; domain := domain pnl;
     range := range pnl; log := log pnl; mapping := m;
     panel_vars := panel_vars pnl |}.
Definition set_panel_vars (v : option (gmap string float)) (pnl : CoordmapPanel)
  : CoordmapPanel :=
  {| panel := panel pnl; row := row pnl; col := col pnl; domain := domain pnl;
     range := range pnl; log := log pnl; mapping := mapping pnl;
     panel_vars := v |}.
Definition set_log (l : CoordmapPanelLog) (pnl : CoordmapPanel) : CoordmapPanel :=
  {| panel := panel pnl; row := row pnl; col := col pnl; domain := domain pnl;
     range := range pnl; log := l; mapping := mapping pnl;
     panel_vars := panel_vars pnl |}.
Definition set_domain (d : CoordmapPanelDomain) (pnl : CoordmapPanel) : CoordmapPanel :=
  {| panel := panel pnl; row := row pnl; col := col pnl; domain := d;
     range := range pnl; log := log pnl; mapping := mapping pnl;
     panel_vars := panel_vars pnl |}.

(** [panel["panel_vars"][key] = v]: the subscript [panel["panel_vars"]]
    raises [KeyError] when the panel has no such key. *)
Definition panel_vars_setitem (key : string) (v : float) (pnl : CoordmapPanel)
  : result CoordmapPanel :=
  match panel_vars pnl with
  | Some d => Ok (set_panel_vars (Some (<[key := v]> d)) pnl)
  | None => Raise (DictKeyError "panel_vars")
  end.

(** *** The store

    The caller holds references to its plot specification and its figure;
    [deepcopy] allocates a new object, and the build step updates the
    object it is called on. *)
Abbreviation loc := positive (only parsing).

Record Store : Type := {
  plots : gmap loc PlotnineFigure;
  figures : gmap loc Figure
}.

(** Computations that read and write the store and may raise. *)
Definition M (A : Type) : Type := Store → result A * Store.

#[export] Instance M_ret : MRet M := λ A a σ, (Ok a, σ).
#[export] Instance M_bind : MBind M := λ A B k m σ,
  match m σ with
  | (Ok a, σ') => k a σ'
  | (Raise e, σ') => (Raise e, σ')
  end.

Definition lift {A} (r : result A) : M A := λ σ, (r, σ).

Definition read_figure (l : loc) : M Figure := λ σ,
  match figures σ !! l with
  | Some v => (Ok v, σ)
  | None => (Raise InvalidReference, σ)
  end.

Definition read_plot (l : loc) : M PlotnineFigure := λ σ,
  match plots σ !! l with
  | Some v => (Ok v, σ)
  | None => (Raise InvalidReference, σ)
  end.

(** [deepcopy(p)]: a new object, equal to the one copied and sharing
    nothing with it. *)
Definition deepcopy (l : loc) : M loc := λ σ,
  match plots σ !! l with
  | Some v =>
      let l' := fresh (dom (plots σ)) in
      (Ok l', {| plots := <[l' := v]> (plots σ); figures := figures σ |})
  | None => (Raise InvalidReference, σ)
  end.

Section Enrich.

(** Python's [float] on a string: the float it parses to, [None] where
    [float] raises [ValueError]. *)
Variable str_to_float : string → option float.

(** plotnine's build step [p._build()] as a function of the plot it is
    called on: the plot as built, or the message of what it raises.  It
    acts on the object it is called on (see [call_build]). *)
Variable _build : PlotnineFigure → string + PlotnineFigure.

(** [float(v)]. *)
Definition py_float (v : pyval) : result float :=
  match v with
  | PyNone => Raise TypeError
  | PyInt z =>
      let f := Z_to_float z in
      if is_infinity f then Raise OverflowError else Ok f
  | PyFloat f => Ok f
  | PyStr s =>
      match str_to_float s with
      | Some f => Ok f
      | None => Raise ValueError
      end
  end.

(** [p._build()] on the object at [l]. *)
Definition call_build (l : loc) : M unit := λ σ,
  match plots σ !! l with
  | Some v =>
      match _build v with
      | inr v' => (Ok (), {| plots := <[l := v']> (plots σ); figures := figures σ |})
      | inl msg => (Raise (BuildError msg), σ)
      end
  | None => (Raise InvalidReference, σ)
  end.

(** Slice out the row of the layout data frame that corresponds to this
    panel. *)
Definition get_layout_row (p : PlotnineFigure) (panel_num : Z) : result DataFrame :=
  let df := Layout.layout (ggplot.layout p) in
  c ← df_getitem df (PyStr "PANEL");
  Ok (df_loc df (series_eq c panel_num)).

(** [float(layout_row[name].iloc[0])]: the value of a paneling variable
    in the panel's layout row, as a float. *)
Definition panelvar_value (layout_row : DataFrame) (name : pyval) : result float :=
  c ← df_getitem layout_row name;
  v ← iloc0 c;
  py_float v.

(** Get values of panelvars. *)
Definition get_panel_vars (layout_row : DataFrame) (pnl : CoordmapPanel)
  : result CoordmapPanel :=
  pnl ←
    match mapping pnl !! "panelvar1" with
    | Some _ =>
        let pnl := set_panel_vars (Some ∅) pnl in
        panelvar1 ← dict_getitem (mapping pnl) "panelvar1";
        panelvar1_val ← panelvar_value layout_row panelvar1;
        panel_vars_setitem "panelvar1" panelvar1_val pnl
    | None => Ok pnl
    end;
  match mapping pnl !! "panelvar2" with
  | Some _ =>
      panelvar2 ← dict_getitem (mapping pnl) "panelvar2";
      panelvar2_val ← panelvar_value layout_row panelvar2;
      panel_vars_setitem "panelvar2" panelvar2_val pnl
  | None => Ok pnl
  end.

(** Get x and y scales. *)
Definition get_scales (p : PlotnineFigure) (layout_row : DataFrame)
  : result (scale * scale) :=
  cx ← df_getitem layout_row (PyStr "SCALE_X");
  xscale_num ← iloc0 cx;
  cy ← df_getitem layout_row (PyStr "SCALE_Y");
  yscale_num ← iloc0 cy;
  ix ← py_sub1 xscale_num;
  xscale ← py_list_getitem (Layout.panel_scales_x (ggplot.layout p)) ix;
  iy ← py_sub1 yscale_num;
  yscale ← py_list_getitem (Layout.panel_scales_y (ggplot.layout p)) iy;
  Ok (xscale, yscale).

(** Log scales of the ggplot object. *)
Definition scale_log (xscale yscale : scale) (pnl : CoordmapPanel)
  : result CoordmapPanel :=
  pnl ←
    (if _is_log_trans (_trans xscale) then
       b ← getattr "base" (trans_base (_trans xscale));
       Ok (set_log (set_log_x b (log pnl)) pnl)
     else Ok pnl);
  if _is_log_trans (_trans yscale) then
    b ← getattr "base" (trans_base (_trans yscale));
    Ok (set_log (set_log_y b (log pnl)) pnl)
  else Ok pnl.

(** Reversed scales: [domain] is the panel's own dictionary. *)
Definition scale_reverse (xscale yscale : scale) (pnl : CoordmapPanel)
  : CoordmapPanel :=
  let pnl :=
    if _is_reverse_trans (_trans xscale) then
      let domain := domain pnl in
      let domain := set_left (- left domain)%float domain in
      let domain := set_right (- right domain)%float domain in
      set_domain domain pnl
    else pnl in
  if _is_reverse_trans (_trans yscale) then
    let domain := domain pnl in
    let domain := set_top (- top domain)%float domain in
    let domain := set_bottom (- bottom domain)%float domain in
    set_domain domain pnl
  else pnl.

(** Log transforms in the coordinates. *)
Definition coord_log (p : PlotnineFigure) (pnl : CoordmapPanel)
  : result CoordmapPanel :=
  let coord := Layout.coord (ggplot.layout p) in
  pnl ←
    (if has_log_trans (trans_x coord) then
       t ← getattr "trans_x" (trans_x coord);
       b ← getattr "base" (trans_base t);
       Ok (set_log (set_log_x b (log pnl)) pnl)
     else Ok pnl);
  if has_log_trans (trans_y coord) then
    t ← getattr "trans_y" (trans_y coord);
    b ← getattr "base" (trans_base t);
    Ok (set_log (set_log_y b (log pnl)) pnl)
  else Ok pnl.

(** The body of the loop over the panels, from the copy of the panel to
    the panel assigned back. *)
Definition enrich_panel (p : PlotnineFigure) (mappings : gmap string pyval)
    (panel0 : CoordmapPanel) : result CoordmapPanel :=
  let pnl := panel0 in
  let panel_num := panel pnl in
  let pnl := set_mapping mappings pnl in
  layout_row ← get_layout_row p panel_num;
  pnl ← get_panel_vars layout_row pnl;
  '(xscale, yscale) ← get_scales p layout_row;
  pnl ← scale_log xscale yscale pnl;
  let pnl := scale_reverse xscale yscale pnl in
  coord_log p pnl.

(** [for i in range(len(coordmap["panels"]))], the indices still to visit
    in [indices]: each panel is read at [i] and assigned back at [i]. *)
Fixpoint enrich_loop (p : PlotnineFigure) (mappings : gmap string pyval)
    (indices : list nat) (panels : list CoordmapPanel)
  : result (list CoordmapPanel) :=
  match indices with
  | [] => Ok panels
  | i :: indices =>
      panel0 ← list_getitem panels (Z.of_nat i);
      pnl ← enrich_panel p mappings panel0;
      enrich_loop p mappings indices (<[i := pnl]> panels)
  end.

(** The function from its test [coordmap is None] on. *)
Definition enrich_coordmap (coordmap : option Coordmap) (p : loc)
  : M (option Coordmap) :=
  match coordmap with
  | None => mret None
  | Some coordmap =>
      p ← deepcopy p;
      call_build p;;
      p_built ← read_plot p;
      lift (
        (* The mappings are shared across all panels, so just get them once. *)
        mappings ← _get_mappings p_built;
        panels ← enrich_loop p_built mappings
                    (seq 0 (length (panels coordmap))) (panels coordmap);
        Ok (Some {| panels := panels; dims := dims coordmap |}))
  end.

Definition get_coordmap_plotnine (p fig : loc) : M (option Coordmap) :=
  fig_v ← read_figure fig;
  let coordmap := get_coordmap fig_v in
  enrich_coordmap coordmap p.

End Enrich.

(** ** Reading the results

    Two abbreviations the statements below use: the value of a log entry
    after a step that may set it, and the domain after the reversal step. *)

(** The log entry after a step that, when [is_log] holds, sets it to the
    [base] attribute ([None] when the attribute is missing), and leaves
    [before] otherwise. *)
Definition log_after (is_log : bool) (base : option pyval) (before : pyval)
  : option pyval :=
  if is_log then base else Some before.

(** The domain with the edges of a reversed scale negated. *)
Definition reversed_domain (xscale yscale : scale) (d : CoordmapPanelDomain)
  : CoordmapPanelDomain :=
  {| left := if _is_reverse_trans (_trans xscale) then (- left d)%float else left d;
     right := if _is_reverse_trans (_trans xscale) then (- right d)%float else right d;
     bottom := if _is_reverse_trans (_trans yscale) then (- bottom d)%float else bottom d;
     top := if _is_reverse_trans (_trans yscale) then (- top d)%float else top d |}.

(** [r] is not the [KeyError] of the subscript [panel["panel_vars"]]. *)
Definition no_panel_vars_fault {A} (r : result A) : Prop :=
  r ≠ Raise (DictKeyError "panel_vars").

(** * Example objects

    A figure of two panels side by side, the second with a base-10 log
    x axis, rendered from a plot faceted in a grid by [cyl] (columns) and
    [am] (rows); and a one-panel figure of a plot with flipped
    coordinates.  The build step of the examples fills the layout table,
    which the plot the caller holds does not have yet. *)

Module Examples.

Definition linear_scale : ScaleBase :=
  {| scale_name := "linear"; scale_base := PyNone; scale_transform := λ v, v |}.

(** A base-10 log scale; its forward transform on the limits in use. *)
Definition log10_scale : ScaleBase :=
  {| scale_name := "log"; scale_base := PyInt 10;
     scale_transform := λ v, if (v =? 100)%float then 2%float else 0%float |}.

Definition axes_1 : Axes :=
  {| get_subplotspec := {| rowspan_start := 0; colspan_start := 0 |};
     get_xlim := (2%float, 6%float);
     get_ylim := (10%float, 30%float);
     transData_transform := λ x0 y0 x1 y1,
       mkNDArray4 (x0 * 64)%float (y0 * 8)%float (x1 * 64)%float (y1 * 8)%float;
     xaxis_scale := linear_scale;
     yaxis_scale := linear_scale |}.

Definition axes_2 : Axes :=
  {| get_subplotspec := {| rowspan_start := 0; colspan_start := 1 |};
     get_xlim := (1%float, 100%float);
     get_ylim := (10%float, 30%float);
     transData_transform := λ x0 y0 x1 y1,
       mkNDArray4 (320 + x0)%float (y0 * 8)%float (320 + x1 * 3)%float (y1 * 8)%float;
     xaxis_scale := log10_scale;
     yaxis_scale := linear_scale |}.

Definition fig_grid : Figure :=
  {| get_size_inches := (8%float, 6%float); get_dpi := 80%float;
     get_axes := [axes_1; axes_2] |}.

Definition fig_single : Figure :=
  {| get_size_inches := (8%float, 6%float); get_dpi := 80%float;
     get_axes := [axes_1] |}.

Definition fig_no_axes : Figure :=
  {| get_size_inches := (8%float, 6%float); get_dpi := 80%float;
     get_axes := [] |}.

Definition no_mapping : gmap string pyval := <["y" := PyNone]> (<["x" := PyNone]> ∅).

(** What the extractor returns for the two-panel figure. *)
Definition extracted_1 : CoordmapPanel :=
  {| panel := 1; row := 1; col := 1;
     domain := {| left := 2; right := 6; bottom := 10; top := 30 |};
     range := {| left := 128; right := 384; bottom := 400; top := 240 |};
     log := {| log_x := PyNone; log_y := PyNone |};
     mapping := no_mapping; panel_vars := None |}.

Definition extracted_2 : CoordmapPanel :=
  {| panel := 2; row := 1; col := 2;
     domain := {| left := 0; right := 2; bottom := 10; top := 30 |};
     range := {| left := 321; right := 620; bottom := 400; top := 240 |};
     log := {| log_x := PyInt 10; log_y := PyNone |};
     mapping := no_mapping; panel_vars := None |}.

Definition figure_dims : CoordmapDims := {| width := 640; height := 480 |}.

Definition extracted_grid : Coordmap :=
  {| panels := [extracted_1; extracted_2]; dims := figure_dims |}.

Definition extracted_single : Coordmap :=
  {| panels := [extracted_1]; dims := figure_dims |}.

(** The plots. *)
Definition transform (name : string) (base : option pyval) : trans :=
  {| trans_type_name := name; trans_base := base |}.

Definition scale_of (t : trans) : scale := {| _trans := t |}.

Definition layout_table_grid : DataFrame :=
  list_to_map
    [("PANEL", [PyInt 1; PyInt 2]);
     ("SCALE_X", [PyInt 1; PyInt 2]);
     ("SCALE_Y", [PyInt 1; PyInt 1]);
     ("cyl", [PyInt 4; PyInt 6]);
     ("am", [PyInt 0; PyInt 0])].

Definition layout_table_single : DataFrame :=
  list_to_map
    [("PANEL", [PyInt 1]); ("SCALE_X", [PyInt 1]); ("SCALE_Y", [PyInt 1])].

Definition wt_mpg : gmap string pyval :=
  <["y" := PyStr "mpg"]> (<["x" := PyStr "wt"]> ∅).

Definition plot_grid_with (table : DataFrame) : PlotnineFigure :=
  {| ggplot.mapping := wt_mpg;
     ggplot.layout :=
       {| Layout.layout := table;
          Layout.panel_scales_x :=
            [scale_of (transform "identity_trans" None);
             scale_of (transform "log2_trans" (Some (PyInt 2)))];
          Layout.panel_scales_y := [scale_of (transform "reverse_trans" None)];
          Layout.coord :=
            {| coord_type_name := "coord_trans";
               trans_x := Some (transform "identity_trans" None);
               trans_y := Some (transform "log10_trans" (Some (PyInt 10))) |};
          Layout.facet :=
            {| facet_type_name := "facet_grid";
               cols := Some ["cyl"]; rows := Some ["am"]; vars := None |} |} |}.

Definition plot_flip_with (table : DataFrame) : PlotnineFigure :=
  {| ggplot.mapping := wt_mpg;
     ggplot.layout :=
       {| Layout.layout := table;
          Layout.panel_scales_x := [scale_of (transform "identity_trans" None)];
          Layout.panel_scales_y := [scale_of (transform "identity_trans" None)];
          Layout.coord :=
            {| coord_type_name := "coord_flip"; trans_x := None; trans_y := None |};
          Layout.facet :=
            {| facet_type_name := "facet_null";
               cols := None; rows := None; vars := None |} |} |}.

(** The plots as the caller holds them, and as built. *)
Definition plot_grid : PlotnineFigure := plot_grid_with ∅.
Definition plot_grid_built : PlotnineFigure := plot_grid_with layout_table_grid.
Definition plot_flip : PlotnineFigure := plot_flip_with ∅.
Definition plot_flip_built : PlotnineFigure := plot_flip_with layout_table_single.

Definition build (p : PlotnineFigure) : string + PlotnineFigure :=
  if String.eqb (facet_type_name (Layout.facet (ggplot.layout p))) "facet_grid"
  then inr plot_grid_built else inr plot_flip_built.

Definition no_str_to_float (s : string) : option float := None.

(** The caller's store: the plots at 1 and 2, the figures at 1 and 2;
    and the stores after the calls, with the copy at 3. *)
Definition store : Store :=
  {| plots := <[2%positive := plot_flip]> {[1%positive := plot_grid]};
     figures := <[2%positive := fig_single]> {[1%positive := fig_grid]} |}.

Definition store_after_grid : Store :=
  {| plots := <[3%positive := plot_grid_built]> (plots store);
     figures := figures store |}.

Definition store_after_flip : Store :=
  {| plots := <[3%positive := plot_flip_built]> (plots store);
     figures := figures store |}.

(** The enriched maps. *)
Definition grid_mapping : gmap string pyval :=
  <["panelvar2" := PyStr "am"]> (<["panelvar1" := PyStr "cyl"]> wt_mpg).

Definition enriched_1 : CoordmapPanel :=
  {| panel := 1; row := 1; col := 1;
     domain := {| left := 2; right := 6; bottom := (-10); top := (-30) |};
     range := {| left := 128; right := 384; bottom := 400; top := 240 |};
     log := {| log_x := PyNone; log_y := PyInt 10 |};
     mapping := grid_mapping;
     panel_vars := Some (<["panelvar2" := 0%float]> (<["panelvar1" := 4%float]> ∅)) |}.

Definition enriched_2 : CoordmapPanel :=
  {| panel := 2; row := 1; col := 2;
     domain := {| left := 0; right := 2; bottom := (-10); top := (-30) |};
     range := {| left := 321; right := 620; bottom := 400; top := 240 |};
     log := {| log_x := PyInt 2; log_y := PyInt 10 |};
     mapping := grid_mapping;
     panel_vars := Some (<["panelvar2" := 0%float]> (<["panelvar1" := 6%float]> ∅)) |}.

Definition enriched_grid : Coordmap :=
  {| panels := [enriched_1; enriched_2]; dims := figure_dims |}.

Definition flipped_1 : CoordmapPanel :=
  {| panel := 1; row := 1; col := 1;
     domain := {| left := 2; right := 6; bottom := 10; top := 30 |};
     range := {| left := 128; right := 384; bottom := 400; top := 240 |};
     log := {| log_x := PyNone; log_y := PyNone |};
     mapping := <["y" := PyStr "wt"]> (<["x" := PyStr "mpg"]> ∅);
     panel_vars := None |}.

Definition enriched_flip : Coordmap :=
  {| panels := [flipped_1]; dims := figure_dims |}.

(** The layout rows of the two panels of the grid. *)
Definition layout_row_1 : DataFrame :=
  list_to_map
    [("PANEL", [PyInt 1]); ("SCALE_X", [PyInt 1]); ("SCALE_Y", [PyInt 1]);
     ("cyl", [PyInt 4]); ("am", [PyInt 0])].

Definition layout_row_2 : DataFrame :=
  list_to_map
    [("PANEL", [PyInt 2]); ("SCALE_X", [PyInt 2]); ("SCALE_Y", [PyInt 1]);
     ("cyl", [PyInt 6]); ("am", [PyInt 0])].

End Examples.

(** * Properties *)

(** ** The extractor *)

Lemma foldl_snoc_imap {A B} (f : nat → A → B) (l : list A) (k : nat) (acc : list B) :
  foldl (λ acc '(i, a), acc ++ [f i a]) acc (imap (λ i a, (k + i, a)%nat) l)
  = acc ++ imap (λ i a, f (k + i)%nat a) l.
Proof.
  revert k acc. induction l as [|a l IH]; intros k acc; simpl.
  - by rewrite app_nil_r.
  - rewrite Nat.add_0_r.
    rewrite (imap_ext _ (λ i a, (S k + i, a)%nat) l) by (intros; simpl; f_equal; lia).
    rewrite IH, <- app_assoc. simpl. f_equal. f_equal.
    apply imap_ext. intros. simpl. f_equal. lia.
Qed.

(** The loop of [get_coordmap] builds the panels of the axes in order, the
    axes at position [i] as panel [i + 1]. *)
Lemma get_coordmap_eq (fig : Figure) :
  get_coordmap fig =
  let h := (snd (get_size_inches fig) * get_dpi fig)%float in
  Some {| panels := imap (λ i axes, get_coordmap_panel axes (Z.of_nat i + 1) h)
                         (get_axes fig);
          dims := {| width := (fst (get_size_inches fig) * get_dpi fig)%float;
                     height := h |} |}.
Proof.
  unfold get_coordmap, enumerate. simpl. do 2 f_equal.
  rewrite (imap_ext pair (λ i a, (0 + i, a)%nat) (get_axes fig)) by done.
  rewrite (foldl_snoc_imap
             (λ i axes, get_coordmap_panel axes (Z.of_nat i + 1) _)). done.
Qed.

Lemma panel_get_coordmap_panel axes panel_num height :
  panel (get_coordmap_panel axes panel_num height) = panel_num.
Proof.
  unfold get_coordmap_panel.
  destruct (String.eqb _ _), (String.eqb _ _); reflexivity.
Qed.



Lemma range_get_coordmap_panel axes panel_num height :
  range (get_coordmap_panel axes panel_num height) =
  let range_ar :=
    transData_transform axes (fst (get_xlim axes)) (fst (get_ylim axes))
                             (snd (get_xlim axes)) (snd (get_ylim axes)) in
  {| left := ar0 range_ar; right := ar2 range_ar;
     bottom := (height - ar1 range_ar)%float;
     top := (height - ar3 range_ar)%float |}.
Proof.
  unfold get_coordmap_panel.
  destruct (String.eqb _ _), (String.eqb _ _); reflexivity.
Qed.

(** C2: when the data-to-pixel transform of a panel's axes sends the
    corners of its domain to [l, b, r, t] (bottom-origin pixels: [b] for
    the bottom edge, [t] for the top edge), the panel's range has
    [bottom = height - b] and [top = height - t], [height] being the
    figure's pixel height (its height in inches times the dpi), and [left]
    and [right] are [l] and [r] unchanged. *)
Theorem get_coordmap_range_inverted (fig : Figure) (coordmap : Coordmap)
    (i : nat) (axes : Axes) (pnl : CoordmapPanel) (l b r t : float) :
  get_coordmap fig = Some coordmap →
  get_axes fig !! i = Some axes →
  panels coordmap !! i = Some pnl →
  transData_transform axes (fst (get_xlim axes)) (fst (get_ylim axes))
                           (snd (get_xlim axes)) (snd (get_ylim axes))
  = mkNDArray4 l b r t →
  height (dims coordmap) = (snd (get_size_inches fig) * get_dpi fig)%float
  ∧ range pnl = {| left := l; right := r;
                   bottom := (height (dims coordmap) - b)%float;
                   top := (height (dims coordmap) - t)%float |}.
Proof.
  rewrite get_coordmap_eq. simpl. intros [= <-] Hax Hp Htr. simpl in *.
  rewrite list_lookup_imap, Hax in Hp. simpl in Hp. injection Hp as <-.
  rewrite !range_get_coordmap_panel, Htr. simpl. done.
Qed.

(** C4: an axis whose scale is named "log" gives the panel its base as
    [log.x] (resp. [log.y]) and, as domain edges, the scale's forward
    transform of the axis limits; for any other scale the log entry is
    [None] and the domain edges are the axis limits. *)
Theorem get_coordmap_panel_log (axes : Axes) (panel_num : Z) (height : float) :
  let pnl := get_coordmap_panel axes panel_num height in
  let xaxis := xaxis_scale axes in
  let yaxis := yaxis_scale axes in
  (scale_name xaxis = "log" →
     log_x (log pnl) = scale_base xaxis
     ∧ left (domain pnl) = scale_transform xaxis (fst (get_xlim axes))
     ∧ right (domain pnl) = scale_transform xaxis (snd (get_xlim axes)))
  ∧ (scale_name xaxis ≠ "log" →
     log_x (log pnl) = PyNone
     ∧ left (domain pnl) = fst (get_xlim axes)
     ∧ right (domain pnl) = snd (get_xlim axes))
  ∧ (scale_name yaxis = "log" →
     log_y (log pnl) = scale_base yaxis
     ∧ bottom (domain pnl) = scale_transform yaxis (fst (get_ylim axes))
     ∧ top (domain pnl) = scale_transform yaxis (snd (get_ylim axes)))
  ∧ (scale_name yaxis ≠ "log" →
     log_y (log pnl) = PyNone
     ∧ bottom (domain pnl) = fst (get_ylim axes)
     ∧ top (domain pnl) = snd (get_ylim axes)).
Proof.
  unfold get_coordmap_panel.
  destruct (String.eqb_spec (scale_name (xaxis_scale axes)) "log"),
           (String.eqb_spec (scale_name (yaxis_scale axes)) "log");
    simpl; repeat split; intros; done.
Qed.

(** ** The monads *)

Lemma bind_Ok {A B} (r : result A) (k : A → result B) (b : B) :
  r ≫= k = Ok b ↔ ∃ a, r = Ok a ∧ k a = Ok b.
Proof.
  destruct r as [a|e]; simpl; split.
  - eauto.
  - by intros (? & [= <-] & ?).
  - done.
  - by intros (? & ? & ?).
Qed.

Lemma bind_Raise {A B} (r : result A) (k : A → result B) (e : exn) :
  r ≫= k = Raise e ↔ r = Raise e ∨ ∃ a, r = Ok a ∧ k a = Raise e.
Proof.
  destruct r as [a|e']; simpl; split.
  - eauto.
  - intros [H|(? & [= <-] & ?)]; [discriminate H | done].
  - intros [= <-]. by left.
  - intros [[= ->]|(? & H & ?)]; [done | discriminate H].
Qed.

(** Inversion of a computation that returned: every bind on the way
    returned. *)
Ltac inv_Ok :=
  repeat match goal with
  | H : _ ≫= _ = Ok _ |- _ => apply bind_Ok in H; destruct H as (? & ? & H)
  | H : Ok _ = Ok _ |- _ => injection H as H
  | H : Raise _ = Ok _ |- _ => discriminate H
  | H : (_, _) = (_, _) |- _ => injection H as ? ?
  end.

(** ** Python operations *)

Lemma list_getitem_nat {A} (l : list A) (i : nat) :
  list_getitem l (Z.of_nat i) =
  match l !! i with Some a => Ok a | None => Raise IndexError end.
Proof.
  unfold list_getitem.
  destruct (Z.ltb_spec (Z.of_nat i) 0); [lia|].
  destruct (Z.leb_spec 0 (Z.of_nat i)); [|lia]. simpl.
  rewrite Nat2Z.id.
  destruct (Z.ltb_spec (Z.of_nat i) (Z.of_nat (length l))).
  - done.
  - rewrite lookup_ge_None_2; [done | lia].
Qed.

Lemma list_getitem_0 {A} (l : list A) :
  list_getitem l 0 = match l with a :: _ => Ok a | [] => Raise IndexError end.
Proof. change 0 with (Z.of_nat 0). rewrite list_getitem_nat. by destruct l. Qed.

Lemma mapM_result_Ok {A B} (f : A → result B) (l : list A) (l' : list B) :
  mapM f l = Ok l' ↔ Forall2 (λ a b, f a = Ok b) l l'.
Proof.
  revert l'. induction l as [|a l IH]; intros l'; simpl.
  - split; [intros [= <-]; constructor | by inversion 1].
  - split.
    + intros H. apply bind_Ok in H as (b & Hb & H).
      apply bind_Ok in H as (k & Hk & [= <-]).
      constructor; [done | by apply IH].
    + inversion 1 as [|? b ? k Hb Hk]; subst. rewrite Hb. simpl.
      apply IH in Hk. by rewrite Hk.
Qed.

(** ** The name pattern of a log transform *)

Lemma fullmatch_any_then_unfold (suffix s : string) :
  fullmatch_any_then suffix s
  = String.eqb s suffix ||
    match s with
    | EmptyString => false
    | String c rest => negb (Ascii.eqb c "010"%char) && fullmatch_any_then suffix rest
    end.
Proof. by destruct s. Qed.

Lemma fullmatch_any_then_spec (suffix s : string) :
  fullmatch_any_then suffix s = true
  ↔ ∃ mid, s = mid +:+ suffix ∧ no_newline mid = true.
Proof.
  split.
  - induction s as [|c rest IH]; rewrite fullmatch_any_then_unfold.
    + rewrite orb_false_r. intros ->%String.eqb_eq. by exists "".
    + intros [->%String.eqb_eq | [Hc Hrest]%andb_prop]%orb_prop; [by exists ""|].
      destruct (IH Hrest) as (mid & -> & Hmid).
      exists (String c mid). split; [done|].
      change (negb (Ascii.eqb c "010"%char) && no_newline mid = true).
      by rewrite Hc, Hmid.
  - intros (mid & -> & Hmid). induction mid as [|c mid IH];
      rewrite fullmatch_any_then_unfold.
    + change ("" +:+ suffix) with suffix. by rewrite String.eqb_refl.
    + change (negb (Ascii.eqb c "010"%char) && no_newline mid = true) in Hmid.
      apply andb_prop in Hmid as [Hc Hmid].
      change (String c mid +:+ suffix) with (String c (mid +:+ suffix)).
      cbv beta iota. rewrite Hc, (IH Hmid). apply orb_true_r.
Qed.

(** [_is_log_trans] holds of the names ["log" ++ mid ++ "_trans"], [mid]
    any string without a newline. *)
Lemma fullmatch_log_trans_spec (name : string) :
  fullmatch_log_trans name = true
  ↔ ∃ mid, name = "log" +:+ mid +:+ "_trans" ∧ no_newline mid = true.
Proof.
  split.
  - unfold fullmatch_log_trans. intros H.
    repeat match type of H with
    | match ?s with EmptyString => _ | String _ _ => _ end = true =>
        destruct s as [|? ?]; [discriminate H|]
    | match ?a with Ascii _ _ _ _ _ _ _ _ => _ end = true =>
        destruct a as [[] [] [] [] [] [] [] []]; try discriminate H
    end.
    apply fullmatch_any_then_spec in H as (mid & -> & Hmid). by exists mid.
  - intros (mid & -> & Hmid). simpl. apply fullmatch_any_then_spec. by exists mid.
Qed.

(** ** The loop over the panels *)

Section EnrichLoop.

Variable str_to_float : string → option float.
Variable p : PlotnineFigure.
Variable mappings : gmap string pyval.

Lemma enrich_loop_app (done rest : list CoordmapPanel) :
  enrich_loop str_to_float p mappings
    (seq (length done) (length rest)) (done ++ rest)
  = rest' ← mapM (enrich_panel str_to_float p mappings) rest; Ok (done ++ rest').
Proof.
  revert done. induction rest as [|q0 rest IH]; intros done; simpl.
  - done.
  - rewrite list_getitem_nat, lookup_app_r, Nat.sub_diag by lia. simpl.
    destruct (enrich_panel str_to_float p mappings q0) as [q|e]; simpl; [|done].
    rewrite insert_app_r_alt, Nat.sub_diag by lia. simpl.
    rewrite (cons_middle q done rest), app_assoc.
    replace (S (length done)) with (length (done ++ [q]))
      by (rewrite length_app; simpl; lia).
    rewrite IH.
    destruct (mapM _ rest) as [rest'|e]; simpl; [|done].
    by rewrite <- app_assoc.
Qed.

(** The loop returns when the body returns on every panel, and then
    holds the body's results in the order of the panels. *)
Lemma enrich_loop_Ok (l l' : list CoordmapPanel) :
  enrich_loop str_to_float p mappings (seq 0 (length l)) l = Ok l'
  ↔ Forall2 (λ q0 q, enrich_panel str_to_float p mappings q0 = Ok q) l l'.
Proof.
  pose proof (enrich_loop_app [] l) as Happ. simpl in Happ. rewrite Happ. clear Happ.
  rewrite <- mapM_result_Ok.
  destruct (mapM _ l); simpl; split; congruence.
Qed.

(** An exception of the loop is an exception of the body on one of the
    panels. *)
Lemma enrich_loop_Raise (l : list CoordmapPanel) (e : exn) :
  enrich_loop str_to_float p mappings (seq 0 (length l)) l = Raise e →
  ∃ q0, q0 ∈ l ∧ enrich_panel str_to_float p mappings q0 = Raise e.
Proof.
  pose proof (enrich_loop_app [] l) as Happ. simpl in Happ. rewrite Happ. clear Happ.
  induction l as [|q0 l IH]; simpl; [done|].
  destruct (enrich_panel str_to_float p mappings q0) as [q|e'] eqn:Hq; simpl.
  - destruct (mapM _ l) as [r|e'] eqn:Hl; simpl in *; [done|].
    intros [= <-]. destruct IH as (q1 & ? & ?); [done|].
    exists q1. split; [by right | done].
  - intros [= <-]. exists q0. split; [by left | done].
Qed.

End EnrichLoop.

(** ** [get_coordmap_plotnine]: what a returned map is made of *)

Section EnrichProperties.

Variable str_to_float : string → option float.
Variable _build : PlotnineFigure → string + PlotnineFigure.

Lemma fresh_plot_None (σ : Store) : plots σ !! fresh (dom (plots σ)) = None.
Proof. apply not_elem_of_dom, is_fresh. Qed.

(** The run of [enrich_coordmap] on a coordinate map, step by step: the
    copy is a new object, the build step updates the copy, and the rest
    reads the copy as built. *)
Lemma enrich_coordmap_Some (coordmap : Coordmap) (p : loc) (σ : Store) :
  enrich_coordmap str_to_float _build (Some coordmap) p σ =
  match plots σ !! p with
  | None => (Raise InvalidReference, σ)
  | Some p_v =>
      let p' := fresh (dom (plots σ)) in
      let σ1 := {| plots := <[p' := p_v]> (plots σ); figures := figures σ |} in
      match _build p_v with
      | inl msg => (Raise (BuildError msg), σ1)
      | inr p_built =>
          (mappings ← _get_mappings p_built;
           panels ← enrich_loop str_to_float p_built mappings
                      (seq 0 (length (panels coordmap))) (panels coordmap);
           Ok (Some {| panels := panels; dims := dims coordmap |}),
           {| plots := <[p' := p_built]> (plots σ); figures := figures σ |})
      end
  end.
Proof.
  unfold enrich_coordmap, mbind, M_bind, deepcopy, call_build, read_plot, lift.
  destruct (plots σ !! p) as [p_v|]; [|done]. simpl.
  rewrite lookup_insert_eq.
  destruct (_build p_v) as [msg|p_built]; [done|]. simpl.
  rewrite lookup_insert_eq, insert_insert_eq. done.
Qed.

Lemma get_coordmap_plotnine_unfold (p fig : loc) (σ : Store) :
  get_coordmap_plotnine str_to_float _build p fig σ =
  match figures σ !! fig with
  | None => (Raise InvalidReference, σ)
  | Some fig_v => enrich_coordmap str_to_float _build (get_coordmap fig_v) p σ
  end.
Proof.
  unfold get_coordmap_plotnine, mbind, M_bind, read_figure.
  by destruct (figures σ !! fig).
Qed.

(** A returned map: the figure's extracted map, each panel run through
    the loop body with the plot as built and its shared mappings. *)
Lemma get_coordmap_plotnine_Ok (p fig : loc) (σ σ' : Store) (cm : Coordmap) :
  get_coordmap_plotnine str_to_float _build p fig σ = (Ok (Some cm), σ') →
  ∃ fig_v coordmap p_v p_built mappings,
    figures σ !! fig = Some fig_v
    ∧ get_coordmap fig_v = Some coordmap
    ∧ plots σ !! p = Some p_v
    ∧ _build p_v = inr p_built
    ∧ _get_mappings p_built = Ok mappings
    ∧ dims cm = dims coordmap
    ∧ Forall2 (λ q0 q, enrich_panel str_to_float p_built mappings q0 = Ok q)
              (panels coordmap) (panels cm).
Proof.
  rewrite get_coordmap_plotnine_unfold.
  destruct (figures σ !! fig) as [fig_v|]; [|done].
  destruct (get_coordmap fig_v) as [coordmap|] eqn:Hcm; [|done].
  rewrite enrich_coordmap_Some.
  destruct (plots σ !! p) as [p_v|]; [|done]. simpl.
  destruct (_build p_v) as [msg|p_built] eqn:Hb; [done|].
  intros [= H _]. inv_Ok. subst. simpl.
  exists fig_v, coordmap, p_v, p_built. eexists.
  repeat split; try done. by apply enrich_loop_Ok.
Qed.

(** Conversely the call returns, with the copy as the only new object of
    the store, when the build step returns and the loop body returns on
    every extracted panel. *)
Lemma get_coordmap_plotnine_returns (p fig : loc) (σ : Store) (fig_v : Figure)
    (coordmap : Coordmap) (p_v p_built : PlotnineFigure)
    (mappings : gmap string pyval) (panels' : list CoordmapPanel) :
  figures σ !! fig = Some fig_v →
  get_coordmap fig_v = Some coordmap →
  plots σ !! p = Some p_v →
  _build p_v = inr p_built →
  _get_mappings p_built = Ok mappings →
  Forall2 (λ q0 q, enrich_panel str_to_float p_built mappings q0 = Ok q)
          (panels coordmap) panels' →
  get_coordmap_plotnine str_to_float _build p fig σ
  = (Ok (Some {| panels := panels'; dims := dims coordmap |}),
     {| plots := <[fresh (dom (plots σ)) := p_built]> (plots σ);
        figures := figures σ |}).
Proof.
  intros Hfig Hcm Hp Hb Hm Hall.
  rewrite get_coordmap_plotnine_unfold, Hfig, Hcm, enrich_coordmap_Some, Hp.
  simpl. rewrite Hb, Hm. simpl.
  apply enrich_loop_Ok in Hall. by rewrite Hall.
Qed.

End EnrichProperties.

(** ** The loop body, step by step *)

Lemma dict_getitem_Some {V} (d : gmap string V) (key : string) (v : V) :
  d !! key = Some v → dict_getitem d key = Ok v.
Proof. unfold dict_getitem. by intros ->. Qed.

Lemma getattr_Ok {A} (attr : string) (o : option A) (a : A) :
  getattr attr o = Ok a ↔ o = Some a.
Proof. destruct o; simpl; split; congruence. Qed.

Section LoopBody.

Variable str_to_float : string → option float.

(** What [get_panel_vars] returns: the panel with a new [panel_vars]
    only, holding the value of each paneling variable of the mapping. *)
Lemma get_panel_vars_Ok (layout_row : DataFrame) (pnl pnl' : CoordmapPanel) :
  get_panel_vars str_to_float layout_row pnl = Ok pnl' →
  pnl' = set_panel_vars (panel_vars pnl') pnl
  ∧ (mapping pnl !! "panelvar1" = None → mapping pnl !! "panelvar2" = None →
       panel_vars pnl' = panel_vars pnl)
  ∧ (∀ name, mapping pnl !! "panelvar1" = Some name →
       ∃ f d, panelvar_value str_to_float layout_row name = Ok f
              ∧ panel_vars pnl' = Some d ∧ d !! "panelvar1" = Some f)
  ∧ (∀ name, mapping pnl !! "panelvar2" = Some name →
       ∃ f d, panelvar_value str_to_float layout_row name = Ok f
              ∧ panel_vars pnl' = Some d ∧ d !! "panelvar2" = Some f).
Proof.
  unfold get_panel_vars, panelvar_value, panel_vars_setitem.
  destruct pnl as [n r c dm rg lg m pv]. simpl.
  destruct (m !! "panelvar1") as [name1|] eqn:H1; simpl.
  - rewrite (dict_getitem_Some _ _ _ H1). simpl.
    destruct (df_getitem layout_row name1) as [c1|] eqn:Hc1; simpl; [|done].
    destruct (iloc0 c1) as [v1|] eqn:Hv1; simpl; [|done].
    destruct (py_float str_to_float v1) as [f1|] eqn:Hf1; simpl; [|done].
    destruct (m !! "panelvar2") as [name2|] eqn:H2; simpl.
    + rewrite (dict_getitem_Some _ _ _ H2). simpl.
      destruct (df_getitem layout_row name2) as [c2|] eqn:Hc2; simpl; [|done].
      destruct (iloc0 c2) as [v2|] eqn:Hv2; simpl; [|done].
      destruct (py_float str_to_float v2) as [f2|] eqn:Hf2; simpl; [|done].
      intros [= <-]. simpl. repeat split; try done.
      * intros ? [= <-]. rewrite Hc1. simpl. rewrite Hv1. simpl.
        eexists _, _. split; [done|]. split; [done|].
        by rewrite lookup_insert_ne, lookup_insert_eq.
      * intros ? [= <-]. rewrite Hc2. simpl. rewrite Hv2. simpl.
        eexists _, _. split; [done|]. split; [done|]. by rewrite lookup_insert_eq.
    + intros [= <-]. simpl. repeat split; try done.
      intros ? [= <-]. rewrite Hc1. simpl. rewrite Hv1. simpl.
      eexists _, _. split; [done|]. split; [done|]. by rewrite lookup_insert_eq.
  - destruct (m !! "panelvar2") as [name2|] eqn:H2; simpl.
    + rewrite (dict_getitem_Some _ _ _ H2). simpl.
      destruct (df_getitem layout_row name2) as [c2|] eqn:Hc2; simpl; [|done].
      destruct (iloc0 c2) as [v2|] eqn:Hv2; simpl; [|done].
      destruct (py_float str_to_float v2) as [f2|] eqn:Hf2; simpl; [|done].
      destruct pv as [d|]; simpl; [|done].
      intros [= <-]. simpl. repeat split; try done.
      intros ? [= <-]. rewrite Hc2. simpl. rewrite Hv2. simpl.
      eexists _, _. split; [done|]. split; [done|]. by rewrite lookup_insert_eq.
    + intros [= <-]. simpl. repeat split; done.
Qed.

Lemma scale_log_Ok (xscale yscale : scale) (pnl pnl' : CoordmapPanel) :
  scale_log xscale yscale pnl = Ok pnl' →
  pnl' = set_log (log pnl') pnl
  ∧ Some (log_x (log pnl'))
    = log_after (_is_log_trans (_trans xscale)) (trans_base (_trans xscale))
                (log_x (log pnl))
  ∧ Some (log_y (log pnl'))
    = log_after (_is_log_trans (_trans yscale)) (trans_base (_trans yscale))
                (log_y (log pnl)).
Proof.
  unfold scale_log, log_after. destruct pnl as [n r c dm rg [lx ly] m pv].
  destruct (_is_log_trans (_trans xscale)), (_is_log_trans (_trans yscale));
    try destruct (trans_base (_trans xscale)); try destruct (trans_base (_trans yscale));
    simpl; try done; by intros [= <-].
Qed.

Lemma coord_log_Ok (p : PlotnineFigure) (pnl pnl' : CoordmapPanel) :
  let coord := Layout.coord (ggplot.layout p) in
  coord_log p pnl = Ok pnl' →
  pnl' = set_log (log pnl') pnl
  ∧ Some (log_x (log pnl'))
    = log_after (has_log_trans (trans_x coord)) (trans_x coord ≫= trans_base)
                (log_x (log pnl))
  ∧ Some (log_y (log pnl'))
    = log_after (has_log_trans (trans_y coord)) (trans_y coord ≫= trans_base)
                (log_y (log pnl)).
Proof.
  unfold coord_log, log_after. destruct pnl as [n r c dm rg [lx ly] m pv].
  destruct (trans_x (Layout.coord (ggplot.layout p))) as [tx|],
           (trans_y (Layout.coord (ggplot.layout p))) as [ty|]; simpl;
    try destruct (_is_log_trans tx); try destruct (_is_log_trans ty);
    try destruct (trans_base tx); try destruct (trans_base ty);
    simpl; try done; by intros [= <-].
Qed.

Lemma scale_reverse_eq (xscale yscale : scale) (pnl : CoordmapPanel) :
  scale_reverse xscale yscale pnl
  = set_domain (reversed_domain xscale yscale (domain pnl)) pnl.
Proof.
  unfold scale_reverse, reversed_domain.
  destruct pnl as [n r c [dl dr db dt] rg lg m pv].
  by destruct (_is_reverse_trans (_trans xscale)), (_is_reverse_trans (_trans yscale)).
Qed.

(** The loop body on a panel, when it returns: the steps it went
    through. *)
Lemma enrich_panel_Ok (p : PlotnineFigure) (mappings : gmap string pyval)
    (q0 q : CoordmapPanel) :
  enrich_panel str_to_float p mappings q0 = Ok q →
  ∃ layout_row xscale yscale q1 q2,
    get_layout_row p (panel q0) = Ok layout_row
    ∧ get_panel_vars str_to_float layout_row (set_mapping mappings q0) = Ok q1
    ∧ get_scales p layout_row = Ok (xscale, yscale)
    ∧ scale_log xscale yscale q1 = Ok q2
    ∧ coord_log p (scale_reverse xscale yscale q2) = Ok q.
Proof.
  unfold enrich_panel. intros H. simpl in H.
  apply bind_Ok in H as (layout_row & Hrow & H).
  apply bind_Ok in H as (q1 & Hq1 & H).
  apply bind_Ok in H as ([xscale yscale] & Hsc & H).
  apply bind_Ok in H as (q2 & Hq2 & H).
  by exists layout_row, xscale, yscale, q1, q2.
Qed.

(** The fields of a panel the loop body returns, from the extracted
    panel [q0], its layout row and its scales. *)
Lemma enrich_panel_fields (p : PlotnineFigure) (mappings : gmap string pyval)
    (q0 q : CoordmapPanel) (layout_row : DataFrame) (xscale yscale : scale) :
  let coord := Layout.coord (ggplot.layout p) in
  enrich_panel str_to_float p mappings q0 = Ok q →
  get_layout_row p (panel q0) = Ok layout_row →
  get_scales p layout_row = Ok (xscale, yscale) →
  panel q = panel q0 ∧ row q = row q0 ∧ col q = col q0 ∧ range q = range q0
  ∧ mapping q = mappings
  ∧ domain q = reversed_domain xscale yscale (domain q0)
  ∧ (∃ q1, get_panel_vars str_to_float layout_row (set_mapping mappings q0) = Ok q1
           ∧ panel_vars q = panel_vars q1)
  ∧ (∃ lx, Some lx = log_after (_is_log_trans (_trans xscale))
                               (trans_base (_trans xscale)) (log_x (log q0))
           ∧ Some (log_x (log q))
             = log_after (has_log_trans (trans_x coord))
                         (trans_x coord ≫= trans_base) lx)
  ∧ (∃ ly, Some ly = log_after (_is_log_trans (_trans yscale))
                               (trans_base (_trans yscale)) (log_y (log q0))
           ∧ Some (log_y (log q))
             = log_after (has_log_trans (trans_y coord))
                         (trans_y coord ≫= trans_base) ly).
Proof.
  intros coord H Hrow Hsc.
  apply enrich_panel_Ok in H as (row' & xs & ys & q1 & q2 & Hrow' & Hq1 & Hsc' & Hq2 & Hq).
  rewrite Hrow in Hrow'. injection Hrow' as <-.
  rewrite Hsc in Hsc'. injection Hsc' as <- <-.
  apply get_panel_vars_Ok in Hq1 as Hpv. destruct Hpv as (Hq1eq & _).
  apply scale_log_Ok in Hq2 as (Hq2eq & Hlx & Hly).
  rewrite scale_reverse_eq in Hq.
  apply coord_log_Ok in Hq as (Hqeq & Hlx' & Hly').
  rewrite Hqeq, Hq2eq, Hq1eq. simpl.
  repeat split; try done.
  - by exists q1.
  - exists (log_x (log q2)). split; [|done].
    rewrite Hlx, Hq1eq. done.
  - exists (log_y (log q2)). split; [|done].
    rewrite Hly, Hq1eq. done.
Qed.

End LoopBody.

(** ** [_get_mappings] *)

Ltac map_lookups :=
  repeat first
    [ rewrite lookup_insert_eq
    | rewrite lookup_insert_ne by done
    | rewrite lookup_empty ].

(** The mapping [_get_mappings] returns, key by key: [x] and [y] from the
    plot's mapping, swapped under [coord_flip]; the paneling variables from
    the facet. *)
Lemma _get_mappings_Ok (p : PlotnineFigure) (m : gmap string pyval) :
  let flip := String.eqb (coord_type_name (Layout.coord (ggplot.layout p))) "coord_flip" in
  let x0 := default PyNone (ggplot.mapping p !! "x") in
  let y0 := default PyNone (ggplot.mapping p !! "y") in
  let facet := Layout.facet (ggplot.layout p) in
  _get_mappings p = Ok m →
  m !! "x" = Some (if flip then y0 else x0)
  ∧ m !! "y" = Some (if flip then x0 else y0)
  ∧ (facet_type_name facet = "facet_grid" →
     ∃ cs rs, cols facet = Some cs ∧ rows facet = Some rs
       ∧ m !! "panelvar1" = PyStr <$> match cs with [] => head rs | c :: _ => Some c end
       ∧ m !! "panelvar2" = PyStr <$> match cs with [] => None | _ :: _ => head rs end)
  ∧ (facet_type_name facet ≠ "facet_grid" → facet_type_name facet = "facet_wrap" →
     ∃ v vs, vars facet = Some (v :: vs)
       ∧ m !! "panelvar1" = Some (PyStr v) ∧ m !! "panelvar2" = None)
  ∧ (facet_type_name facet ≠ "facet_grid" → facet_type_name facet ≠ "facet_wrap" →
     m !! "panelvar1" = None ∧ m !! "panelvar2" = None).
Proof.
  intros flip x0 y0 facet. subst flip x0 y0 facet. unfold _get_mappings.
  destruct (Layout.facet (ggplot.layout p)) as [fname fcols frows fvars]. simpl.
  unfold dict_getitem.
  destruct (ggplot.mapping p !! "x") as [x0|], (ggplot.mapping p !! "y") as [y0|];
    simpl;
    destruct (String.eqb (coord_type_name _) "coord_flip"); simpl; map_lookups; simpl;
    (destruct (String.eqb_spec fname "facet_grid") as [Hg|Hg];
      [ destruct fcols as [[|c cs]|], frows as [[|r rs]|]; simpl; try done;
        rewrite ?list_getitem_0; simpl;
        change (panelvar 1) with "panelvar1";
        change (panelvar (1 + 1)) with "panelvar2"
      | destruct (String.eqb_spec fname "facet_wrap") as [Hw|Hw];
        [ destruct fvars as [[|v vs]|]; simpl; try done;
          rewrite ?list_getitem_0; simpl
        | ] ]);
    intros [= <-]; map_lookups;
    repeat split; try done; intros; eexists _, _; by map_lookups.
Qed.

(** ** No fault on a missing [panel_vars] key *)

Create HintDb no_fault.

Lemma no_fault_Ok {A} (a : A) : no_panel_vars_fault (Ok a).
Proof. done. Qed.

Lemma no_fault_bind {A B} (r : result A) (k : A → result B) :
  no_panel_vars_fault r → (∀ a, r = Ok a → no_panel_vars_fault (k a)) →
  no_panel_vars_fault (r ≫= k).
Proof.
  unfold no_panel_vars_fault. intros Hr Hk. destruct r as [a|e]; simpl.
  - by apply Hk.
  - intros [= ->]. by apply Hr.
Qed.

Lemma no_fault_dict_getitem {V} (d : gmap string V) (key : string) :
  key ≠ "panel_vars" → no_panel_vars_fault (dict_getitem d key).
Proof.
  unfold no_panel_vars_fault, dict_getitem. intros Hk.
  destruct (d !! key); [done|]. by intros [= ->].
Qed.

Lemma no_fault_list_getitem {A} (l : list A) (i : Z) :
  no_panel_vars_fault (list_getitem l i).
Proof.
  unfold no_panel_vars_fault, list_getitem.
  destruct (_ && _); [|done]. by destruct (l !! _).
Qed.

Lemma no_fault_py_list_getitem {A} (l : list A) (i : pyval) :
  no_panel_vars_fault (py_list_getitem l i).
Proof. destruct i; simpl; try done. apply no_fault_list_getitem. Qed.

Lemma no_fault_py_sub1 (v : pyval) : no_panel_vars_fault (py_sub1 v).
Proof. by destruct v. Qed.

Lemma no_fault_df_getitem (df : DataFrame) (col : pyval) :
  no_panel_vars_fault (df_getitem df col).
Proof.
  unfold no_panel_vars_fault, df_getitem.
  destruct col; try done. by destruct (df !! s).
Qed.

Lemma no_fault_iloc0 (c : list pyval) : no_panel_vars_fault (iloc0 c).
Proof. by destruct c. Qed.

Lemma no_fault_getattr {A} (attr : string) (o : option A) :
  no_panel_vars_fault (getattr attr o).
Proof. by destruct o. Qed.

#[export] Hint Resolve no_fault_Ok no_fault_list_getitem no_fault_py_list_getitem
  no_fault_py_sub1 no_fault_df_getitem no_fault_iloc0 no_fault_getattr : no_fault.

(** Splits a computation at its binds and branches, down to the operations
    above. *)
Ltac no_fault :=
  repeat first
    [ progress auto with no_fault
    | apply no_fault_bind; [ | intros ? ? ]
    | apply no_fault_dict_getitem; done
    | match goal with
      | |- no_panel_vars_fault (if ?b then _ else _) => destruct b
      | |- no_panel_vars_fault (match ?o with Some _ => _ | None => _ end) => destruct o
      | |- no_panel_vars_fault (let '(_, _) := ?x in _) => destruct x
      end ].

Lemma no_fault__get_mappings (p : PlotnineFigure) :
  no_panel_vars_fault (_get_mappings p).
Proof. unfold _get_mappings. no_fault. Qed.

Section NoFault.

Variable str_to_float : string → option float.

Lemma no_fault_py_float (v : pyval) : no_panel_vars_fault (py_float str_to_float v).
Proof.
  destruct v; simpl; try done.
  - by destruct (is_infinity _).
  - by destruct (str_to_float s).
Qed.

Lemma no_fault_panelvar_value (layout_row : DataFrame) (name : pyval) :
  no_panel_vars_fault (panelvar_value str_to_float layout_row name).
Proof. unfold panelvar_value. pose proof no_fault_py_float. no_fault. Qed.

Lemma no_fault_get_layout_row (p : PlotnineFigure) (panel_num : Z) :
  no_panel_vars_fault (get_layout_row p panel_num).
Proof. unfold get_layout_row. no_fault. Qed.

Lemma no_fault_get_scales (p : PlotnineFigure) (layout_row : DataFrame) :
  no_panel_vars_fault (get_scales p layout_row).
Proof. unfold get_scales. no_fault. Qed.

Lemma no_fault_scale_log (xscale yscale : scale) (pnl : CoordmapPanel) :
  no_panel_vars_fault (scale_log xscale yscale pnl).
Proof. unfold scale_log. no_fault. Qed.

Lemma no_fault_coord_log (p : PlotnineFigure) (pnl : CoordmapPanel) :
  no_panel_vars_fault (coord_log p pnl).
Proof. unfold coord_log. no_fault. Qed.

(** The [panelvar1] branch creates [panel_vars] before the [panelvar2]
    branch stores into it: with a mapping that has [panelvar1] whenever
    it has [panelvar2], the store finds the dictionary. *)
Lemma no_fault_get_panel_vars (layout_row : DataFrame) (pnl : CoordmapPanel) :
  (is_Some (mapping pnl !! "panelvar2") → is_Some (mapping pnl !! "panelvar1")) →
  no_panel_vars_fault (get_panel_vars str_to_float layout_row pnl).
Proof.
  intros Hm. unfold get_panel_vars.
  pose proof no_fault_panelvar_value as Hv.
  destruct pnl as [n r c dm rg lg m pv]. simpl in *.
  destruct (m !! "panelvar1") as [name1|] eqn:H1; simpl.
  - apply no_fault_bind.
    + unfold panel_vars_setitem. simpl. no_fault.
    + intros q1 Hq1. inv_Ok.
      unfold panel_vars_setitem in Hq1. simpl in Hq1. injection Hq1 as <-. simpl.
      destruct (m !! "panelvar2"); [|done].
      unfold panel_vars_setitem. simpl. no_fault.
  - destruct (m !! "panelvar2") as [name2|] eqn:H2; [|done].
    destruct Hm as [? [=]]. by eexists.
Qed.

Lemma no_fault_enrich_panel (p : PlotnineFigure) (mappings : gmap string pyval)
    (q0 : CoordmapPanel) :
  (is_Some (mappings !! "panelvar2") → is_Some (mappings !! "panelvar1")) →
  no_panel_vars_fault (enrich_panel str_to_float p mappings q0).
Proof.
  intros Hm. unfold enrich_panel.
  pose proof no_fault_get_layout_row. pose proof no_fault_get_scales.
  pose proof no_fault_scale_log. pose proof no_fault_coord_log.
  apply no_fault_bind; [done|]. intros layout_row _.
  apply no_fault_bind; [by apply no_fault_get_panel_vars|]. intros q1 _.
  no_fault.
Qed.

End NoFault.

(** ** The claims about [get_coordmap_plotnine] *)

(** Two equations for the same run (the same lookup, the same build)
    name the same objects. *)
Ltac same_run :=
  repeat match goal with
  | H1 : ?x = _, H2 : ?x = _ |- _ => rewrite H1 in H2; injection H2 as ?; subst
  end.

Section Claims.

Variable str_to_float : string → option float.
Variable _build : PlotnineFigure → string + PlotnineFigure.


(** C5: in a returned map, the log entries of panel [i] follow the
    authority ordering, for x and for y: a logarithmic transform of the
    coordinate system gives its base; without one, a logarithmic
    transform of the panel's scale gives its base, whatever the
    extractor recorded; without either, the extractor's entry stays.
    ([Some b = trans_base t] says that [b] is the transform's [base]
    attribute; the panel's scales are the ones its layout row names.) *)
Theorem enrich_log_authority (σ σ' : Store) (p fig : loc) (cm coordmap : Coordmap)
    (fig_v : Figure) (p_v p_built : PlotnineFigure) (i : nat)
    (q0 q : CoordmapPanel) (layout_row : DataFrame) (xscale yscale : scale) :
  get_coordmap_plotnine str_to_float _build p fig σ = (Ok (Some cm), σ') →
  figures σ !! fig = Some fig_v →
  get_coordmap fig_v = Some coordmap →
  plots σ !! p = Some p_v →
  _build p_v = inr p_built →
  panels coordmap !! i = Some q0 →
  panels cm !! i = Some q →
  get_layout_row p_built (panel q0) = Ok layout_row →
  get_scales p_built layout_row = Ok (xscale, yscale) →
  let coord := Layout.coord (ggplot.layout p_built) in
  Some (log_x (log q))
  = (if has_log_trans (trans_x coord) then trans_x coord ≫= trans_base
     else if _is_log_trans (_trans xscale) then trans_base (_trans xscale)
     else Some (log_x (log q0)))
  ∧ Some (log_y (log q))
  = (if has_log_trans (trans_y coord) then trans_y coord ≫= trans_base
     else if _is_log_trans (_trans yscale) then trans_base (_trans yscale)
     else Some (log_y (log q0))).
Proof.
  intros Hrun Hfig Hcm Hp Hb Hq0 Hq Hrow Hsc coord.
  apply get_coordmap_plotnine_Ok in Hrun
    as (fig_v' & coordmap' & p_v' & p_built' & mappings & Hfig' & Hcm' & Hp' & Hb'
        & Hm & _ & Hall).
  same_run.
  pose proof (Forall2_lookup_lr _ _ _ _ _ _ Hall Hq0 Hq) as Hbody. simpl in Hbody.
  pose proof (enrich_panel_fields _ _ _ _ _ _ _ _ Hbody Hrow Hsc)
    as (_ & _ & _ & _ & _ & _ & _ & Hx & Hy).
  destruct Hx as (lx & Hlx & Hx), Hy as (ly & Hly & Hy).
  unfold log_after in *. fold coord in Hx, Hy.
  split.
  - destruct (has_log_trans (trans_x coord)); [done|]. by rewrite Hx, Hlx.
  - destruct (has_log_trans (trans_y coord)); [done|]. by rewrite Hy, Hly.
Qed.

(** C6: in a returned map, the domain of panel [i] has [left] and [right]
    negated when the transform of the panel's x scale has the type name
    [reverse_trans], [top] and [bottom] negated when the one of its y
    scale has; the edges of an axis without a reverse transform are the
    extracted ones. *)
Theorem enrich_reverse_negates_domain (σ σ' : Store) (p fig : loc)
    (cm coordmap : Coordmap) (fig_v : Figure) (p_v p_built : PlotnineFigure)
    (i : nat) (q0 q : CoordmapPanel) (layout_row : DataFrame)
    (xscale yscale : scale) :
  get_coordmap_plotnine str_to_float _build p fig σ = (Ok (Some cm), σ') →
  figures σ !! fig = Some fig_v →
  get_coordmap fig_v = Some coordmap →
  plots σ !! p = Some p_v →
  _build p_v = inr p_built →
  panels coordmap !! i = Some q0 →
  panels cm !! i = Some q →
  get_layout_row p_built (panel q0) = Ok layout_row →
  get_scales p_built layout_row = Ok (xscale, yscale) →
  (_is_reverse_trans (_trans xscale) = true →
     left (domain q) = (- left (domain q0))%float
     ∧ right (domain q) = (- right (domain q0))%float)
  ∧ (_is_reverse_trans (_trans xscale) = false →
     left (domain q) = left (domain q0) ∧ right (domain q) = right (domain q0))
  ∧ (_is_reverse_trans (_trans yscale) = true →
     top (domain q) = (- top (domain q0))%float
     ∧ bottom (domain q) = (- bottom (domain q0))%float)
  ∧ (_is_reverse_trans (_trans yscale) = false →
     top (domain q) = top (domain q0) ∧ bottom (domain q) = bottom (domain q0)).
Proof.
  intros Hrun Hfig Hcm Hp Hb Hq0 Hq Hrow Hsc.
  apply get_coordmap_plotnine_Ok in Hrun
    as (fig_v' & coordmap' & p_v' & p_built' & mappings & Hfig' & Hcm' & Hp' & Hb'
        & Hm & _ & Hall).
  same_run.
  pose proof (Forall2_lookup_lr _ _ _ _ _ _ Hall Hq0 Hq) as Hbody. simpl in Hbody.
  pose proof (enrich_panel_fields _ _ _ _ _ _ _ _ Hbody Hrow Hsc)
    as (_ & _ & _ & _ & _ & Hd & _).
  rewrite Hd. unfold reversed_domain. simpl.
  repeat split; intros;
    repeat match goal with H : _is_reverse_trans _ = _ |- _ => rewrite H; clear H end;
    done.
Qed.

(** The shared mapping has [panelvar1] whenever it has [panelvar2]. *)
Lemma _get_mappings_panelvar2 (p : PlotnineFigure) (m : gmap string pyval) :
  _get_mappings p = Ok m →
  is_Some (m !! "panelvar2") → is_Some (m !! "panelvar1").
Proof.
  intros Hm. apply _get_mappings_Ok in Hm as (_ & _ & Hgrid & Hwrap & Hnone).
  destruct (decide (facet_type_name (Layout.facet (ggplot.layout p)) = "facet_grid"))
    as [Hg|Hg].
  - destruct (Hgrid Hg) as (cs & rs & _ & _ & -> & ->).
    destruct cs; simpl; [by intros [? [=]] | by eauto].
  - destruct (decide (facet_type_name (Layout.facet (ggplot.layout p)) = "facet_wrap"))
      as [Hw|Hw].
    + destruct (Hwrap Hg Hw) as (v & vs & _ & -> & _). by eauto.
    + destruct (Hnone Hg Hw) as (_ & ->). by intros [? [=]].
Qed.

(** C7: in a returned map, panel [i] carries the shared mapping.  For a
    grid facet its [panelvar1] is the first column variable when there
    are column variables (and then [panelvar2] is the first row
    variable, when there are row variables), the first row variable when
    there are only row variables; for a wrap facet [panelvar1] is the
    first wrap variable.  Each paneling variable the mapping declares has
    its value in [panel_vars]: the entry of the variable's column in the
    panel's layout row, coerced by [float]. *)
Theorem enrich_panel_vars (σ σ' : Store) (p fig : loc) (cm coordmap : Coordmap)
    (fig_v : Figure) (p_v p_built : PlotnineFigure) (i : nat)
    (q0 q : CoordmapPanel) (layout_row : DataFrame) :
  get_coordmap_plotnine str_to_float _build p fig σ = (Ok (Some cm), σ') →
  figures σ !! fig = Some fig_v →
  get_coordmap fig_v = Some coordmap →
  plots σ !! p = Some p_v →
  _build p_v = inr p_built →
  panels coordmap !! i = Some q0 →
  panels cm !! i = Some q →
  get_layout_row p_built (panel q0) = Ok layout_row →
  let facet := Layout.facet (ggplot.layout p_built) in
  (facet_type_name facet = "facet_grid" →
     ∃ cs rs, cols facet = Some cs ∧ rows facet = Some rs
       ∧ mapping q !! "panelvar1"
         = PyStr <$> match cs with [] => head rs | c :: _ => Some c end
       ∧ mapping q !! "panelvar2"
         = PyStr <$> match cs with [] => None | _ :: _ => head rs end)
  ∧ (facet_type_name facet = "facet_wrap" →
     ∃ v vs, vars facet = Some (v :: vs)
       ∧ mapping q !! "panelvar1" = Some (PyStr v)
       ∧ mapping q !! "panelvar2" = None)
  ∧ (∀ key name, key = "panelvar1" ∨ key = "panelvar2" →
       mapping q !! key = Some name →
       ∃ f d, panelvar_value str_to_float layout_row name = Ok f
              ∧ panel_vars q = Some d ∧ d !! key = Some f).
Proof.
  intros Hrun Hfig Hcm Hp Hb Hq0 Hq Hrow facet.
  apply get_coordmap_plotnine_Ok in Hrun
    as (fig_v' & coordmap' & p_v' & p_built' & mappings & Hfig' & Hcm' & Hp' & Hb'
        & Hm & _ & Hall).
  same_run.
  pose proof (Forall2_lookup_lr _ _ _ _ _ _ Hall Hq0 Hq) as Hbody. simpl in Hbody.
  destruct (enrich_panel_Ok _ _ _ _ _ Hbody)
    as (row' & xscale & yscale & q1 & q2 & Hrow' & Hq1 & Hsc & _).
  same_run.
  pose proof (enrich_panel_fields _ _ _ _ _ _ _ _ Hbody Hrow Hsc)
    as (_ & _ & _ & _ & Hmq & _ & (q1' & Hq1' & Hpv) & _).
  same_run.
  apply _get_mappings_Ok in Hm as (_ & _ & Hgrid & Hwrap & _).
  apply get_panel_vars_Ok in Hq1 as (_ & _ & Hv1 & Hv2). simpl in Hv1, Hv2.
  rewrite Hpv. repeat split.
  - exact Hgrid.
  - intros Hw. apply Hwrap; [|done]. fold facet. rewrite Hw. done.
  - intros key name [-> | ->] Hname; [by apply Hv1 | by apply Hv2].
Qed.

(** C8: under a flipped coordinate system ([coord_flip]) every panel of
    a returned map reports as [x] what the plot maps to [y], and as [y]
    what it maps to [x] ([None] for a role the plot does not map). *)
Theorem enrich_coord_flip_swaps (σ σ' : Store) (p fig : loc) (cm : Coordmap)
    (p_v p_built : PlotnineFigure) (i : nat) (q : CoordmapPanel) :
  get_coordmap_plotnine str_to_float _build p fig σ = (Ok (Some cm), σ') →
  plots σ !! p = Some p_v →
  _build p_v = inr p_built →
  panels cm !! i = Some q →
  coord_type_name (Layout.coord (ggplot.layout p_built)) = "coord_flip" →
  mapping q !! "x" = Some (default PyNone (ggplot.mapping p_built !! "y"))
  ∧ mapping q !! "y" = Some (default PyNone (ggplot.mapping p_built !! "x")).
Proof.
  intros Hrun Hp Hb Hq Hflip.
  apply get_coordmap_plotnine_Ok in Hrun
    as (fig_v' & coordmap' & p_v' & p_built' & mappings & Hfig' & Hcm' & Hp' & Hb'
        & Hm & _ & Hall).
  same_run.
  destruct (Forall2_lookup_r _ _ _ _ _ Hall Hq) as (q0 & Hq0 & Hbody).
  destruct (enrich_panel_Ok _ _ _ _ _ Hbody)
    as (layout_row & xscale & yscale & q1 & q2 & Hrow & _ & Hsc & _).
  pose proof (enrich_panel_fields _ _ _ _ _ _ _ _ Hbody Hrow Hsc)
    as (_ & _ & _ & _ & -> & _).
  apply _get_mappings_Ok in Hm as (Hx & Hy & _).
  rewrite Hflip in Hx, Hy. done.
Qed.

(** C9: a call changes neither the plot specification nor the figure the
    caller passed: after the call, the caller's references hold the
    objects they held before.  Every object of the store is unchanged;
    the store differs at most by one new object, the copy of the plot
    specification, which is the one the build step ran on. *)
Theorem enrich_leaves_caller_objects (p fig : loc) (σ : Store) :
  let σ' := snd (get_coordmap_plotnine str_to_float _build p fig σ) in
  plots σ' !! p = plots σ !! p
  ∧ figures σ' !! fig = figures σ !! fig
  ∧ plots σ ⊆ plots σ'
  ∧ figures σ' = figures σ
  ∧ (σ' = σ
     ∨ ∃ p' p_copy, plots σ !! p' = None
                    ∧ plots σ' = <[p' := p_copy]> (plots σ)).
Proof.
  cbv zeta. rewrite get_coordmap_plotnine_unfold.
  destruct (figures σ !! fig) as [fig_v|] eqn:Hfig; [|simpl; by auto 10].
  rewrite get_coordmap_eq. cbv zeta. rewrite enrich_coordmap_Some.
  destruct (plots σ !! p) as [p_v|] eqn:Hp; simpl; [|by auto 10].
  pose proof (fresh_plot_None σ) as Hfresh.
  assert (p ≠ fresh (dom (plots σ))) by congruence.
  destruct (_build p_v) as [msg|p_built]; simpl.
  - rewrite lookup_insert_ne by done.
    repeat split; try done; [by apply insert_subseteq | eauto].
  - rewrite lookup_insert_ne by done.
    repeat split; try done; [by apply insert_subseteq | eauto].
Qed.

(** C10: a mapping [_get_mappings] returns has [panelvar2] only with
    [panelvar1]; so the [panelvar1] branch has created [panel_vars]
    when the [panelvar2] branch stores into it, and no call raises the
    [KeyError] of a missing [panel_vars] key. *)
Theorem panelvar2_store_never_faults :
  (∀ p m, _get_mappings p = Ok m →
          is_Some (m !! "panelvar2") → is_Some (m !! "panelvar1"))
  ∧ (∀ p m layout_row pnl, _get_mappings p = Ok m →
       no_panel_vars_fault
         (get_panel_vars str_to_float layout_row (set_mapping m pnl)))
  ∧ (∀ p fig σ,
       no_panel_vars_fault
         (fst (get_coordmap_plotnine str_to_float _build p fig σ))).
Proof.
  split; [exact _get_mappings_panelvar2|]. split.
  - intros p m layout_row pnl Hm. apply no_fault_get_panel_vars. simpl.
    by apply (_get_mappings_panelvar2 p).
  - intros p fig σ. rewrite get_coordmap_plotnine_unfold.
    destruct (figures σ !! fig) as [fig_v|]; [|done].
    rewrite get_coordmap_eq. cbv zeta. rewrite enrich_coordmap_Some.
    destruct (plots σ !! p) as [p_v|]; [|done]. simpl.
    destruct (_build p_v) as [msg|p_built]; [done|]. simpl.
    apply no_fault_bind; [apply no_fault__get_mappings|]. intros m Hm.
    apply no_fault_bind; [|done].
    intros Hraise. apply enrich_loop_Raise in Hraise as (q0 & _ & Hraise).
    revert Hraise. apply no_fault_enrich_panel.
    by apply (_get_mappings_panelvar2 p_built).
Qed.

End Claims.

(** * The claims on the examples *)

Import Examples.

Example get_coordmap_fig_grid : get_coordmap fig_grid = Some extracted_grid.
Proof. vm_compute. reflexivity. Qed.

Example get_coordmap_fig_single : get_coordmap fig_single = Some extracted_single.
Proof. vm_compute. reflexivity. Qed.

Example run_grid :
  get_coordmap_plotnine no_str_to_float build 1%positive 1%positive store
  = (Ok (Some enriched_grid), store_after_grid).
Proof. vm_compute. reflexivity. Qed.

Example run_flip :
  get_coordmap_plotnine no_str_to_float build 2%positive 2%positive store
  = (Ok (Some enriched_flip), store_after_flip).
Proof. vm_compute. reflexivity. Qed.

Example layout_row_of_panel_2 :
  get_layout_row plot_grid_built 2 = Ok layout_row_2.
Proof. vm_compute. reflexivity. Qed.

(** A facet variable with string values: [float] raises, and so does the
    call. *)
Example panelvar_value_string :
  panelvar_value no_str_to_float {[ "class" := [PyStr "compact"] ]} (PyStr "class")
  = Raise ValueError.
Proof. reflexivity. Qed.

Example is_log_trans_names :
  fullmatch_log_trans "log10_trans" = true
  ∧ fullmatch_log_trans "log_trans" = true
  ∧ fullmatch_log_trans "log1p_trans" = true
  ∧ fullmatch_log_trans "log_tran" = false
  ∧ fullmatch_log_trans "symlog_trans" = false
  ∧ fullmatch_log_trans "reverse_trans" = false.
Proof. repeat split. Qed.

(** For C2: panel 1 of the two-panel figure.  The transform sends the
    domain corners to [128, 80, 384, 240]; the figure is 480 pixels high. *)
Lemma get_coordmap_range_inverted_witness :
  get_coordmap fig_grid = Some extracted_grid
  ∧ height (dims extracted_grid) = 480%float
  ∧ range extracted_1 = {| left := 128; right := 384; bottom := 400; top := 240 |}.
Proof.
  split; [vm_compute; reflexivity|].
  apply (get_coordmap_range_inverted fig_grid extracted_grid 0 axes_1 extracted_1
           128 80 384 240); vm_compute; reflexivity.
Defined.


(** For C5: panel 2 of the grid.  The rendering engine recorded base 10 for
    x, the panel's x scale is [log2_trans] with base 2: the entry is 2.  For
    y the coordinate system's [log10_trans] gives 10. *)
Lemma enrich_log_authority_witness :
  get_coordmap_plotnine no_str_to_float build 1%positive 1%positive store
  = (Ok (Some enriched_grid), store_after_grid)
  ∧ log_x (log extracted_2) = PyInt 10
  ∧ Some (log_x (log enriched_2)) = Some (PyInt 2)
  ∧ Some (log_y (log enriched_2)) = Some (PyInt 10).
Proof.
  split; [vm_compute; reflexivity|]. split; [reflexivity|].
  apply (enrich_log_authority no_str_to_float build store store_after_grid
           1%positive 1%positive enriched_grid extracted_grid fig_grid
           plot_grid plot_grid_built 1%nat extracted_2 enriched_2 layout_row_2
           (scale_of (transform "log2_trans" (Some (PyInt 2))))
           (scale_of (transform "reverse_trans" None)));
    vm_compute; reflexivity.
Defined.

(** For C6: panel 1 of the grid, whose y scale is [reverse_trans] and whose
    x scale is not: top and bottom are negated, left and right stay. *)
Lemma enrich_reverse_negates_domain_witness :
  get_coordmap_plotnine no_str_to_float build 1%positive 1%positive store
  = (Ok (Some enriched_grid), store_after_grid)
  ∧ (left (domain enriched_1) = left (domain extracted_1)
     ∧ right (domain enriched_1) = right (domain extracted_1))
  ∧ (top (domain enriched_1) = (- top (domain extracted_1))%float
     ∧ bottom (domain enriched_1) = (- bottom (domain extracted_1))%float).
Proof.
  split; [vm_compute; reflexivity|].
  destruct (enrich_reverse_negates_domain no_str_to_float build store store_after_grid
              1%positive 1%positive enriched_grid extracted_grid fig_grid
              plot_grid plot_grid_built 0%nat extracted_1 enriched_1 layout_row_1
              (scale_of (transform "identity_trans" None))
              (scale_of (transform "reverse_trans" None)))
    as (_ & Hx & Hy & _); try (vm_compute; reflexivity).
  split; [apply Hx | apply Hy]; reflexivity.
Defined.

(** For C7: panel 2 of the grid, faceted by [cyl] in columns and [am] in
    rows: [panelvar1] is [cyl], [panelvar2] is [am], and the values are
    those of the panel's layout row, 6 and 0, as floats. *)
Lemma enrich_panel_vars_witness :
  get_coordmap_plotnine no_str_to_float build 1%positive 1%positive store
  = (Ok (Some enriched_grid), store_after_grid)
  ∧ mapping enriched_2 !! "panelvar1" = Some (PyStr "cyl")
  ∧ mapping enriched_2 !! "panelvar2" = Some (PyStr "am")
  ∧ (∃ f d, panelvar_value no_str_to_float layout_row_2 (PyStr "cyl") = Ok f
            ∧ panel_vars enriched_2 = Some d ∧ d !! "panelvar1" = Some f)
  ∧ (∃ f d, panelvar_value no_str_to_float layout_row_2 (PyStr "am") = Ok f
            ∧ panel_vars enriched_2 = Some d ∧ d !! "panelvar2" = Some f).
Proof.
  split; [vm_compute; reflexivity|].
  destruct (enrich_panel_vars no_str_to_float build store store_after_grid
              1%positive 1%positive enriched_grid extracted_grid fig_grid
              plot_grid plot_grid_built 1%nat extracted_2 enriched_2 layout_row_2)
    as (Hgrid & _ & Hvalues); try (vm_compute; reflexivity).
  destruct Hgrid as (cs & rs & Hcs & Hrs & H1 & H2); [reflexivity|].
  injection Hcs as <-. injection Hrs as <-.
  split; [exact H1|]. split; [exact H2|].
  split; apply Hvalues; first [left; reflexivity | right; reflexivity | assumption].
Defined.

(** For C8: the plot with flipped coordinates maps [x] to "wt" and [y] to
    "mpg"; its panel reports [x] as "mpg" and [y] as "wt". *)
Lemma enrich_coord_flip_swaps_witness :
  get_coordmap_plotnine no_str_to_float build 2%positive 2%positive store
  = (Ok (Some enriched_flip), store_after_flip)
  ∧ ggplot.mapping plot_flip_built !! "x" = Some (PyStr "wt")
  ∧ ggplot.mapping plot_flip_built !! "y" = Some (PyStr "mpg")
  ∧ mapping flipped_1 !! "x" = Some (PyStr "mpg")
  ∧ mapping flipped_1 !! "y" = Some (PyStr "wt").
Proof.
  split; [vm_compute; reflexivity|].
  split; [vm_compute; reflexivity|]. split; [vm_compute; reflexivity|].
  apply (enrich_coord_flip_swaps no_str_to_float build store store_after_flip
           2%positive 2%positive enriched_flip plot_flip plot_flip_built
           0%nat flipped_1); vm_compute; reflexivity.
Defined.

(** The caller's plot after the call of the grid example: it is the plot
    the caller passed, with its empty layout table; the built plot is the
    copy. *)
Example caller_plot_after_run :
  plots store_after_grid !! 1%positive = Some plot_grid
  ∧ plots store_after_grid !! 3%positive = Some plot_grid_built
  ∧ plots store !! 3%positive = None.
Proof. repeat split; vm_compute; reflexivity. Qed.

(** The build step run on the caller's own object, without the copy,
    replaces the caller's plot by the built one. *)
Example build_in_place_changes_caller_plot :
  plots (snd (call_build build 1%positive store)) !! 1%positive = Some plot_grid_built
  ∧ plot_grid_built ≠ plot_grid.
Proof.
  split; [vm_compute; reflexivity|].
  intros H. apply (f_equal (λ p, Layout.layout (ggplot.layout p) !! "PANEL")) in H.
  vm_compute in H. discriminate H.
Qed.


(** * Further properties of the module *)

(** ** [_is_log_trans], [_is_reverse_trans] *)

(** A transform is classified as logarithmic exactly when the name of its
    class is "log", any characters but a newline, then "_trans"; as a
    reversal exactly when the name is "reverse_trans"; and never as both. *)
Theorem trans_classification (t : trans) :
  (_is_log_trans t = true
   ↔ ∃ mid, trans_type_name t = "log" +:+ mid +:+ "_trans" ∧ no_newline mid = true)
  ∧ (_is_reverse_trans t = true ↔ trans_type_name t = "reverse_trans")
  ∧ (_is_log_trans t && _is_reverse_trans t = false).
Proof.
  split; [apply fullmatch_log_trans_spec|].
  split; [apply String.eqb_eq|].
  unfold _is_log_trans, _is_reverse_trans.
  destruct (String.eqb_spec (trans_type_name t) "reverse_trans") as [->|];
    [reflexivity | apply andb_false_r].
Qed.

(** ** [_get_mappings] *)

(** The mapping [_get_mappings] returns always has the keys [x] and [y],
    and no key other than [x], [y], [panelvar1] and [panelvar2]; without
    [coord_flip], [x] and [y] are what the plot maps to them ([None] for a
    role it does not map). *)
Theorem _get_mappings_keys (p : PlotnineFigure) (m : gmap string pyval) :
  _get_mappings p = Ok m →
  is_Some (m !! "x") ∧ is_Some (m !! "y")
  ∧ (∀ k, is_Some (m !! k) →
          k = "x" ∨ k = "y" ∨ k = "panelvar1" ∨ k = "panelvar2")
  ∧ (coord_type_name (Layout.coord (ggplot.layout p)) ≠ "coord_flip" →
     m !! "x" = Some (default PyNone (ggplot.mapping p !! "x"))
     ∧ m !! "y" = Some (default PyNone (ggplot.mapping p !! "y"))).
Proof.
  intros Hm.
  pose proof (_get_mappings_Ok p m Hm) as (Hx & Hy & _).
  split; [by rewrite Hx|]. split; [by rewrite Hy|]. split.
  - intros k Hk.
    destruct (decide (k = "x")) as [|Hkx]; [by auto|].
    destruct (decide (k = "y")) as [|Hky]; [by auto|].
    destruct (decide (k = "panelvar1")) as [|Hk1]; [by auto|].
    destruct (decide (k = "panelvar2")) as [|Hk2]; [by auto|].
    exfalso. revert Hm Hk. clear Hx Hy. unfold _get_mappings, dict_getitem.
    destruct (Layout.facet (ggplot.layout p)) as [fname fcols frows fvars]. simpl.
    destruct (ggplot.mapping p !! "x") as [x0|], (ggplot.mapping p !! "y") as [y0|];
      simpl;
      destruct (String.eqb (coord_type_name _) "coord_flip"); simpl; map_lookups; simpl;
      (destruct (String.eqb fname "facet_grid");
        [ destruct fcols as [[|c cs]|], frows as [[|r rs]|]; simpl; try done;
          rewrite ?list_getitem_0; simpl;
          change (panelvar 1) with "panelvar1";
          change (panelvar (1 + 1)) with "panelvar2"
        | destruct (String.eqb fname "facet_wrap");
          [ destruct fvars as [[|v vs]|]; simpl; try done;
            rewrite ?list_getitem_0; simpl
          | ] ]);
      intros [= <-]; rewrite ?lookup_insert_ne by done; rewrite lookup_empty;
      by intros [? [=]].
  - intros Hflip. apply String.eqb_neq in Hflip. by rewrite Hflip in Hx, Hy.
Qed.

(** When [_get_mappings] returns and what it raises.  It reads [cols]
    and [rows] of a facet whose class is named [facet_grid], and the first
    of [vars] of one named [facet_wrap]: it raises [AttributeError] on a
    missing attribute, [IndexError] on a wrap facet without variables, and
    returns in every other case (a grid facet may have no variables). *)
Theorem _get_mappings_faults (p : PlotnineFigure) :
  let facet := Layout.facet (ggplot.layout p) in
  let grid := String.eqb (facet_type_name facet) "facet_grid" in
  let wrap := String.eqb (facet_type_name facet) "facet_wrap" in
  match _get_mappings p with
  | Ok _ =>
      if grid then is_Some (cols facet) ∧ is_Some (rows facet)
      else if wrap then ∃ v vs, vars facet = Some (v :: vs)
      else True
  | Raise e =>
      if grid then
        (cols facet = None ∧ e = AttributeError "cols")
        ∨ (is_Some (cols facet) ∧ rows facet = None ∧ e = AttributeError "rows")
      else
        wrap = true
        ∧ ((vars facet = None ∧ e = AttributeError "vars")
           ∨ (vars facet = Some [] ∧ e = IndexError))
  end.
Proof.
  unfold _get_mappings, dict_getitem.
  destruct (Layout.facet (ggplot.layout p)) as [fname fcols frows fvars]. simpl.
  destruct (ggplot.mapping p !! "x") as [x0|], (ggplot.mapping p !! "y") as [y0|];
    simpl;
    destruct (String.eqb (coord_type_name _) "coord_flip"); simpl; map_lookups; simpl;
    (destruct (String.eqb fname "facet_grid");
      [ destruct fcols as [[|c cs]|], frows as [[|r rs]|]; simpl;
        rewrite ?list_getitem_0; simpl; by eauto
      | destruct (String.eqb fname "facet_wrap");
        [ destruct fvars as [[|v vs]|]; simpl;
          rewrite ?list_getitem_0; simpl; by eauto
        | done ] ]).
Qed.

(** ** The extracted panels, as [get_coordmap_plotnine] receives them *)

Lemma panel_vars_get_coordmap_panel (axes : Axes) (panel_num : Z) (height : float) :
  panel_vars (get_coordmap_panel axes panel_num height) = None.
Proof.
  unfold get_coordmap_panel.
  destruct (String.eqb _ _), (String.eqb _ _); reflexivity.
Qed.

(** Panel [i] of an extracted map has number [i + 1] and no [panel_vars]. *)
Lemma get_coordmap_lookup (fig : Figure) (coordmap : Coordmap) (i : nat)
    (q0 : CoordmapPanel) :
  get_coordmap fig = Some coordmap →
  panels coordmap !! i = Some q0 →
  panel q0 = Z.of_nat i + 1 ∧ panel_vars q0 = None.
Proof.
  rewrite get_coordmap_eq. intros [= <-]. simpl.
  rewrite list_lookup_imap. destruct (get_axes fig !! i) as [axes|]; [|done].
  intros [= <-].
  by rewrite panel_get_coordmap_panel, panel_vars_get_coordmap_panel.
Qed.

Lemma mapM_result_Raise {A B} (f : A → result B) (done rest : list A) (a : A)
    (e : exn) :
  Forall (λ x, ∃ y, f x = Ok y) done →
  f a = Raise e →
  mapM f (done ++ a :: rest) = Raise e.
Proof.
  intros Hdone Ha. induction Hdone as [|x done [y Hy] _ IH]; simpl.
  - by rewrite Ha.
  - by rewrite Hy, IH.
Qed.

Section MoreOfEnrich.

Variable str_to_float : string → option float.
Variable _build : PlotnineFigure → string + PlotnineFigure.

(** The enrichment keeps what the extractor computed of the figure: the
    pixel dimensions, the number of panels and, panel by panel, the panel
    number (still [i + 1] at position [i]), the grid position and the pixel
    range. *)
Theorem enrich_keeps_extracted_geometry (σ σ' : Store) (p fig : loc)
    (cm coordmap : Coordmap) (fig_v : Figure) :
  get_coordmap_plotnine str_to_float _build p fig σ = (Ok (Some cm), σ') →
  figures σ !! fig = Some fig_v →
  get_coordmap fig_v = Some coordmap →
  dims cm = dims coordmap
  ∧ length (panels cm) = length (get_axes fig_v)
  ∧ (∀ i q, panels cm !! i = Some q →
       ∃ q0, panels coordmap !! i = Some q0
             ∧ panel q = Z.of_nat i + 1 ∧ panel q = panel q0
             ∧ row q = row q0 ∧ col q = col q0 ∧ range q = range q0).
Proof.
  intros Hrun Hfig Hcm.
  apply get_coordmap_plotnine_Ok in Hrun
    as (fig_v' & coordmap' & p_v & p_built & mappings & Hfig' & Hcm' & Hp & Hb
        & Hm & Hdims & Hall).
  same_run. split; [done|]. split.
  - rewrite <- (Forall2_length _ _ _ Hall).
    match goal with H : get_coordmap _ = Some _ |- _ =>
      rewrite get_coordmap_eq in H; injection H as <- end.
    simpl. apply length_imap.
  - intros i q Hq.
    destruct (Forall2_lookup_r _ _ _ _ _ Hall Hq) as (q0 & Hq0 & Hbody).
    destruct (enrich_panel_Ok _ _ _ _ _ Hbody)
      as (layout_row & xscale & yscale & q1 & q2 & Hrow & _ & Hsc & _).
    pose proof (enrich_panel_fields _ _ _ _ _ _ _ _ Hbody Hrow Hsc)
      as (Hn & Hr & Hc & Hrg & _).
    match goal with H : get_coordmap _ = Some _ |- _ =>
      destruct (get_coordmap_lookup _ _ _ _ H Hq0) as [Hnum _] end.
    exists q0. rewrite Hn, Hr, Hc, Hrg, Hnum. done.
Qed.

(** The mappings are computed once and shared: every panel of a returned
    map carries the same mapping, the one [_get_mappings] returns for the
    built copy of the plot. *)
Theorem enrich_mapping_shared (σ σ' : Store) (p fig : loc) (cm : Coordmap)
    (p_v p_built : PlotnineFigure) :
  get_coordmap_plotnine str_to_float _build p fig σ = (Ok (Some cm), σ') →
  plots σ !! p = Some p_v →
  _build p_v = inr p_built →
  ∃ mappings, _get_mappings p_built = Ok mappings
              ∧ ∀ i q, panels cm !! i = Some q → mapping q = mappings.
Proof.
  intros Hrun Hp Hb.
  apply get_coordmap_plotnine_Ok in Hrun
    as (fig_v & coordmap & p_v' & p_built' & mappings & Hfig & Hcm & Hp' & Hb'
        & Hm & _ & Hall).
  same_run. exists mappings. split; [done|]. intros i q Hq.
  destruct (Forall2_lookup_r _ _ _ _ _ Hall Hq) as (q0 & Hq0 & Hbody).
  destruct (enrich_panel_Ok _ _ _ _ _ Hbody)
    as (layout_row & xscale & yscale & q1 & q2 & Hrow & _ & Hsc & _).
  by pose proof (enrich_panel_fields _ _ _ _ _ _ _ _ Hbody Hrow Hsc)
    as (_ & _ & _ & _ & -> & _).
Qed.

(** A figure without axes: the loop does not run, and the call returns the
    map without panels whenever the build step and [_get_mappings] return,
    whatever the layout table holds. *)
Theorem enrich_no_axes (σ : Store) (p fig : loc) (fig_v : Figure)
    (p_v p_built : PlotnineFigure) (mappings : gmap string pyval) :
  figures σ !! fig = Some fig_v →
  get_axes fig_v = [] →
  plots σ !! p = Some p_v →
  _build p_v = inr p_built →
  _get_mappings p_built = Ok mappings →
  fst (get_coordmap_plotnine str_to_float _build p fig σ)
  = Ok (Some {| panels := [];
                dims := {| width := (fst (get_size_inches fig_v) * get_dpi fig_v)%float;
                           height := (snd (get_size_inches fig_v) * get_dpi fig_v)%float |} |}).
Proof.
  intros Hfig Hax Hp Hb Hm.
  rewrite (get_coordmap_plotnine_returns str_to_float _build p fig σ fig_v
             {| panels := [];
                dims := {| width := (fst (get_size_inches fig_v) * get_dpi fig_v)%float;
                           height := (snd (get_size_inches fig_v) * get_dpi fig_v)%float |} |}
             p_v p_built mappings []);
    first [ done | by rewrite get_coordmap_eq, Hax | constructor ].
Qed.

(** The first panel on which the loop body raises decides the call: it
    raises that exception, and returns no partial map. *)
Theorem enrich_first_fault (σ : Store) (p fig : loc) (fig_v : Figure)
    (coordmap : Coordmap) (p_v p_built : PlotnineFigure)
    (mappings : gmap string pyval) (before after : list CoordmapPanel)
    (q0 : CoordmapPanel) (e : exn) :
  figures σ !! fig = Some fig_v →
  get_coordmap fig_v = Some coordmap →
  plots σ !! p = Some p_v →
  _build p_v = inr p_built →
  _get_mappings p_built = Ok mappings →
  panels coordmap = before ++ q0 :: after →
  Forall (λ q, ∃ q', enrich_panel str_to_float p_built mappings q = Ok q') before →
  enrich_panel str_to_float p_built mappings q0 = Raise e →
  fst (get_coordmap_plotnine str_to_float _build p fig σ) = Raise e.
Proof.
  intros Hfig Hcm Hp Hb Hm Hpanels Hbefore Hq0.
  rewrite get_coordmap_plotnine_unfold, Hfig, Hcm, enrich_coordmap_Some, Hp.
  simpl. rewrite Hb. simpl. rewrite Hm. simpl.
  pose proof (enrich_loop_app str_to_float p_built mappings [] (panels coordmap))
    as Happ. simpl in Happ. rewrite Happ.
  rewrite Hpanels, (mapM_result_Raise _ _ _ _ e Hbefore Hq0). done.
Qed.


End MoreOfEnrich.

(** ** The scales and the layout row of a panel *)


Lemma list_getitem_ge {A} (l : list A) (i : Z) :
  Z.of_nat (length l) ≤ i → list_getitem l i = Raise IndexError.
Proof.
  intros Hi. unfold list_getitem.
  destruct (Z.ltb_spec i 0) as [|_]; [lia|].
  destruct (Z.ltb_spec i (Z.of_nat (length l))) as [|_]; [lia|].
  by rewrite andb_false_r.
Qed.

Lemma select_mask_none (mask : list bool) (c : list pyval) :
  Forall (λ b, b = false) mask → select_mask mask c = [].
Proof.
  intros Hmask. revert c. induction Hmask as [|b mask -> _ IH]; intros [|v c]; simpl; auto.
Qed.

Section ScalesAndRows.

Variable str_to_float : string → option float.

(** The layout row names the scales of a panel by 1-based numbers: scale
    number [k] of the row, from 1 to the number of scales, is the scale at
    position [k - 1] of the list. *)
Theorem get_scales_one_based (p : PlotnineFigure) (layout_row : DataFrame)
    (kx ky : Z) (cx cy : list pyval) :
  layout_row !! "SCALE_X" = Some (PyInt kx :: cx) →
  layout_row !! "SCALE_Y" = Some (PyInt ky :: cy) →
  1 ≤ kx ≤ Z.of_nat (length (Layout.panel_scales_x (ggplot.layout p))) →
  1 ≤ ky ≤ Z.of_nat (length (Layout.panel_scales_y (ggplot.layout p))) →
  ∃ xscale yscale,
    Layout.panel_scales_x (ggplot.layout p) !! Z.to_nat (kx - 1) = Some xscale
    ∧ Layout.panel_scales_y (ggplot.layout p) !! Z.to_nat (ky - 1) = Some yscale
    ∧ get_scales p layout_row = Ok (xscale, yscale).
Proof.
  intros Hx Hy Hkx Hky.
  destruct (lookup_lt_is_Some_2 (Layout.panel_scales_x (ggplot.layout p))
              (Z.to_nat (kx - 1))) as [xscale Hxs]; [lia|].
  destruct (lookup_lt_is_Some_2 (Layout.panel_scales_y (ggplot.layout p))
              (Z.to_nat (ky - 1))) as [yscale Hys]; [lia|].
  exists xscale, yscale. split; [done|]. split; [done|].
  unfold get_scales, df_getitem. rewrite Hx, Hy. simpl.
  replace (kx - 1) with (Z.of_nat (Z.to_nat (kx - 1))) at 1 by lia.
  rewrite list_getitem_nat, Hxs. simpl.
  replace (ky - 1) with (Z.of_nat (Z.to_nat (ky - 1))) at 1 by lia.
  by rewrite list_getitem_nat, Hys.
Qed.


(** A scale number beyond the number of scales raises [IndexError]. *)
Theorem get_scales_out_of_range (p : PlotnineFigure) (layout_row : DataFrame)
    (kx ky : Z) (cx cy : list pyval) :
  layout_row !! "SCALE_X" = Some (PyInt kx :: cx) →
  layout_row !! "SCALE_Y" = Some (PyInt ky :: cy) →
  Z.of_nat (length (Layout.panel_scales_x (ggplot.layout p))) < kx →
  get_scales p layout_row = Raise IndexError.
Proof.
  intros Hx Hy Hkx. unfold get_scales, df_getitem. rewrite Hx, Hy. simpl.
  rewrite (list_getitem_ge (Layout.panel_scales_x (ggplot.layout p))) by lia.
  done.
Qed.

(** A panel whose number no row of the layout table has: without paneling
    variables, the loop body raises [IndexError], at the first entry it
    reads of the empty row. *)
Theorem enrich_panel_no_layout_row (p : PlotnineFigure)
    (mappings : gmap string pyval) (q0 : CoordmapPanel) (c cx : list pyval) :
  Layout.layout (ggplot.layout p) !! "PANEL" = Some c →
  Forall (λ v, py_eq_int v (panel q0) = false) c →
  Layout.layout (ggplot.layout p) !! "SCALE_X" = Some cx →
  mappings !! "panelvar1" = None →
  mappings !! "panelvar2" = None →
  enrich_panel str_to_float p mappings q0 = Raise IndexError.
Proof.
  intros Hc Hnone Hcx H1 H2.
  set (df := Layout.layout (ggplot.layout p)) in *.
  assert (Hrow : get_layout_row p (panel q0)
                 = Ok (df_loc df (series_eq c (panel q0)))).
  { unfold get_layout_row, df_getitem. fold df. by rewrite Hc. }
  assert (Hpv : get_panel_vars str_to_float (df_loc df (series_eq c (panel q0)))
                  (set_mapping mappings q0) = Ok (set_mapping mappings q0)).
  { unfold get_panel_vars. simpl. rewrite H1. simpl. by rewrite H2. }
  assert (Hsc : get_scales p (df_loc df (series_eq c (panel q0))) = Raise IndexError).
  { unfold get_scales, df_getitem, df_loc. rewrite !lookup_fmap, Hcx. simpl.
    rewrite select_mask_none; [done|].
    unfold series_eq. by apply Forall_fmap. }
  unfold enrich_panel. cbv zeta. change (panel (set_mapping mappings q0)) with (panel q0).
  rewrite Hrow. simpl. rewrite Hpv. simpl. by rewrite Hsc.
Qed.

(** A scale transform whose class name matches the log pattern but which
    has no [base] attribute (such as one named [log1p_trans]): the loop
    body raises [AttributeError]. *)
Theorem enrich_panel_log_without_base (p : PlotnineFigure)
    (mappings : gmap string pyval) (q0 q1 : CoordmapPanel)
    (layout_row : DataFrame) (xscale yscale : scale) :
  get_layout_row p (panel q0) = Ok layout_row →
  get_panel_vars str_to_float layout_row (set_mapping mappings q0) = Ok q1 →
  get_scales p layout_row = Ok (xscale, yscale) →
  _is_log_trans (_trans xscale) = true →
  trans_base (_trans xscale) = None →
  enrich_panel str_to_float p mappings q0 = Raise (AttributeError "base").
Proof.
  intros Hrow Hq1 Hsc Hlog Hbase.
  unfold enrich_panel. cbv zeta. rewrite Hrow. simpl. rewrite Hq1. simpl.
  rewrite Hsc. simpl. unfold scale_log. by rewrite Hlog, Hbase.
Qed.

(** What [get_panel_vars] leaves in [panel_vars], for a panel that came
    without one and a mapping that has [panelvar1] whenever it has
    [panelvar2]. *)
Lemma get_panel_vars_dom (layout_row : DataFrame) (pnl pnl' : CoordmapPanel) :
  get_panel_vars str_to_float layout_row pnl = Ok pnl' →
  panel_vars pnl = None →
  (panel_vars pnl' = None ↔ mapping pnl !! "panelvar1" = None)
  ∧ (∀ d, panel_vars pnl' = Some d →
       ∀ k, is_Some (d !! k)
            ↔ (k = "panelvar1" ∨ k = "panelvar2") ∧ is_Some (mapping pnl !! k)).
Proof.
  unfold get_panel_vars, panel_vars_setitem.
  destruct pnl as [n r c dm rg lg m pv]. simpl. intros H ->. revert H.
  destruct (m !! "panelvar1") as [name1|] eqn:H1; simpl.
  - rewrite (dict_getitem_Some _ _ _ H1). simpl.
    destruct (panelvar_value str_to_float layout_row name1) as [f1|]; simpl; [|done].
    destruct (m !! "panelvar2") as [name2|] eqn:H2; simpl.
    + rewrite (dict_getitem_Some _ _ _ H2). simpl.
      destruct (panelvar_value str_to_float layout_row name2) as [f2|]; simpl; [|done].
      intros [= <-]. simpl. split; [done|]. intros d [= <-] k.
      rewrite !lookup_insert_is_Some', lookup_empty. split.
      * intros [<-|[<-|[? [=]]]]; (split; [by auto | by eexists]).
      * intros [[->| ->] _]; by auto.
    + intros [= <-]. simpl. split; [done|]. intros d [= <-] k.
      rewrite !lookup_insert_is_Some', lookup_empty. split.
      * intros [<-|[? [=]]]. split; [by auto | by eexists].
      * intros [[->| ->] Hk]; [by auto|]. rewrite H2 in Hk. by destruct Hk.
  - destruct (m !! "panelvar2") as [name2|] eqn:H2; simpl.
    + rewrite (dict_getitem_Some _ _ _ H2). simpl.
      by destruct (panelvar_value str_to_float layout_row name2).
    + intros [= <-]. simpl. split; [done|]. by intros d [=].
Qed.

End ScalesAndRows.

Section PanelVarsOfEnrich.

Variable str_to_float : string → option float.
Variable _build : PlotnineFigure → string + PlotnineFigure.

(** [panel_vars] is present in a panel of a returned map exactly when the
    mapping declares [panelvar1], and then its keys are the paneling
    variables the mapping declares, no other. *)
Theorem enrich_panel_vars_presence (σ σ' : Store) (p fig : loc) (cm : Coordmap)
    (i : nat) (q : CoordmapPanel) :
  get_coordmap_plotnine str_to_float _build p fig σ = (Ok (Some cm), σ') →
  panels cm !! i = Some q →
  (panel_vars q = None ↔ mapping q !! "panelvar1" = None)
  ∧ (∀ d, panel_vars q = Some d →
       ∀ k, is_Some (d !! k)
            ↔ (k = "panelvar1" ∨ k = "panelvar2") ∧ is_Some (mapping q !! k)).
Proof.
  intros Hrun Hq.
  apply get_coordmap_plotnine_Ok in Hrun
    as (fig_v & coordmap & p_v & p_built & mappings & Hfig & Hcm & Hp & Hb
        & Hm & _ & Hall).
  destruct (Forall2_lookup_r _ _ _ _ _ Hall Hq) as (q0 & Hq0 & Hbody).
  destruct (enrich_panel_Ok _ _ _ _ _ Hbody)
    as (layout_row & xscale & yscale & q1 & q2 & Hrow & Hq1 & Hsc & _).
  pose proof (enrich_panel_fields _ _ _ _ _ _ _ _ Hbody Hrow Hsc)
    as (_ & _ & _ & _ & Hmq & _ & (q1' & Hq1' & Hpv) & _).
  rewrite Hq1 in Hq1'. injection Hq1' as <-.
  destruct (get_coordmap_lookup _ _ _ _ Hcm Hq0) as [_ Hnone].
  rewrite Hpv, Hmq.
  exact (get_panel_vars_dom str_to_float layout_row (set_mapping mappings q0) q1 Hq1 Hnone).
Qed.

End PanelVarsOfEnrich.

(** ** The extractor on its own *)

(** A plain figure carries no variable names: in every extracted panel the
    mapping has [x] and [y], both [None], and nothing else, and there is
    no [panel_vars]; the grid position is the start of the subplot's row
    and column spans, counted from 1. *)
Theorem get_coordmap_positions_and_mapping (fig : Figure) (coordmap : Coordmap)
    (i : nat) (axes : Axes) (q0 : CoordmapPanel) :
  get_coordmap fig = Some coordmap →
  get_axes fig !! i = Some axes →
  panels coordmap !! i = Some q0 →
  row q0 = rowspan_start (get_subplotspec axes) + 1
  ∧ col q0 = colspan_start (get_subplotspec axes) + 1
  ∧ mapping q0 !! "x" = Some PyNone
  ∧ mapping q0 !! "y" = Some PyNone
  ∧ (∀ k, is_Some (mapping q0 !! k) → k = "x" ∨ k = "y")
  ∧ panel_vars q0 = None.
Proof.
  rewrite get_coordmap_eq. intros [= <-] Hax. simpl.
  rewrite list_lookup_imap, Hax. intros [= <-].
  unfold get_coordmap_panel.
  destruct (String.eqb _ _), (String.eqb _ _); simpl;
    (repeat split; try done;
     intros k; rewrite !lookup_insert_is_Some', lookup_empty;
     intros [<-|[<-|[? [=]]]]; by auto).
Qed.

(** ** The further properties on examples *)

Module MoreExamples.

(** A build step that leaves the plot as it is. *)
Definition build_as_is (p : PlotnineFigure) : string + PlotnineFigure := inr p.

(** A plot whose x scale has a transform named [log1p_trans], which has no
    [base]. *)
Definition plot_log1p : PlotnineFigure :=
  {| ggplot.mapping := wt_mpg;
     ggplot.layout :=
       {| Layout.layout := layout_table_single;
          Layout.panel_scales_x := [scale_of (transform "log1p_trans" None)];
          Layout.panel_scales_y := [scale_of (transform "identity_trans" None)];
          Layout.coord :=
            {| coord_type_name := "coord_cartesian"; trans_x := None; trans_y := None |};
          Layout.facet :=
            {| facet_type_name := "facet_null";
               cols := None; rows := None; vars := None |} |} |}.

(** The two-panel figure with a plot built for one panel; the one-panel
    figure with a plot whose layout table is empty; the figure without
    axes. *)
Definition store_of_faults : Store :=
  {| plots := <[2%positive := plot_flip]> {[1%positive := plot_flip_built]};
     figures := <[3%positive := fig_no_axes]>
                  (<[2%positive := fig_single]> {[1%positive := fig_grid]}) |}.


Definition layout_row_scale_3 : DataFrame :=
  list_to_map [("SCALE_X", [PyInt 3]); ("SCALE_Y", [PyInt 1])].

End MoreExamples.

Import MoreExamples.

Lemma _get_mappings_keys_witness :
  _get_mappings plot_grid_built = Ok grid_mapping
  ∧ grid_mapping !! "x" = Some (PyStr "wt")
  ∧ grid_mapping !! "y" = Some (PyStr "mpg").
Proof.
  split; [vm_compute; reflexivity|].
  destruct (_get_mappings_keys plot_grid_built grid_mapping) as (_ & _ & _ & Hxy);
    [vm_compute; reflexivity|].
  apply Hxy. discriminate.
Defined.

Lemma enrich_keeps_extracted_geometry_witness :
  get_coordmap_plotnine no_str_to_float build 1%positive 1%positive store
  = (Ok (Some enriched_grid), store_after_grid)
  ∧ dims enriched_grid = dims extracted_grid
  ∧ length (panels enriched_grid) = length (get_axes fig_grid).
Proof.
  split; [vm_compute; reflexivity|].
  destruct (enrich_keeps_extracted_geometry no_str_to_float build store
              store_after_grid 1%positive 1%positive enriched_grid extracted_grid
              fig_grid) as (Hdims & Hlen & _); try (vm_compute; reflexivity).
  split; assumption.
Defined.

Lemma enrich_mapping_shared_witness :
  get_coordmap_plotnine no_str_to_float build 1%positive 1%positive store
  = (Ok (Some enriched_grid), store_after_grid)
  ∧ ∃ mappings, _get_mappings plot_grid_built = Ok mappings
                ∧ ∀ i q, panels enriched_grid !! i = Some q → mapping q = mappings.
Proof.
  split; [vm_compute; reflexivity|].
  apply (enrich_mapping_shared no_str_to_float build store store_after_grid
           1%positive 1%positive enriched_grid plot_grid plot_grid_built);
    vm_compute; reflexivity.
Defined.

Lemma enrich_no_axes_witness :
  get_axes fig_no_axes = []
  ∧ fst (get_coordmap_plotnine no_str_to_float build_as_is 1%positive 3%positive
           store_of_faults)
    = Ok (Some {| panels := []; dims := figure_dims |}).
Proof.
  split; [reflexivity|].
  apply (enrich_no_axes no_str_to_float build_as_is store_of_faults 1%positive
           3%positive fig_no_axes plot_flip_built plot_flip_built
           (mapping flipped_1)); vm_compute; reflexivity.
Defined.

(** The plot built for one panel, with the figure of two: panel 1 is
    enriched, panel 2 has no layout row, and the call raises. *)
Lemma enrich_first_fault_witness :
  enrich_panel no_str_to_float plot_flip_built (mapping flipped_1) extracted_1
  = Ok flipped_1
  ∧ fst (get_coordmap_plotnine no_str_to_float build_as_is 1%positive 1%positive
           store_of_faults)
    = Raise IndexError.
Proof.
  split; [vm_compute; reflexivity|].
  apply (enrich_first_fault no_str_to_float build_as_is store_of_faults 1%positive
           1%positive fig_grid extracted_grid plot_flip_built plot_flip_built
           (mapping flipped_1) [extracted_1] [] extracted_2 IndexError);
    try (vm_compute; reflexivity).
  constructor; [|constructor]. exists flipped_1. vm_compute. reflexivity.
Defined.


Lemma get_scales_one_based_witness :
  get_scales plot_grid_built layout_row_2
  = Ok (scale_of (transform "log2_trans" (Some (PyInt 2))),
        scale_of (transform "reverse_trans" None)).
Proof.
  destruct (get_scales_one_based plot_grid_built layout_row_2 2 1 [] []
              ltac:(vm_compute; reflexivity) ltac:(vm_compute; reflexivity)
              ltac:(simpl; lia) ltac:(simpl; lia))
    as (xscale & yscale & Hx & Hy & Hscales).
  vm_compute in Hx. vm_compute in Hy.
  injection Hx as <-. injection Hy as <-. exact Hscales.
Defined.


Lemma get_scales_out_of_range_witness :
  length (Layout.panel_scales_x (ggplot.layout plot_grid_built)) = 2%nat
  ∧ get_scales plot_grid_built layout_row_scale_3 = Raise IndexError.
Proof.
  split; [reflexivity|].
  apply (get_scales_out_of_range plot_grid_built layout_row_scale_3 3 1 [] []);
    vm_compute; reflexivity.
Defined.

Lemma enrich_panel_no_layout_row_witness :
  panel extracted_2 = 2
  ∧ Layout.layout (ggplot.layout plot_flip_built) !! "PANEL" = Some [PyInt 1]
  ∧ enrich_panel no_str_to_float plot_flip_built (mapping flipped_1) extracted_2
    = Raise IndexError.
Proof.
  split; [reflexivity|]. split; [vm_compute; reflexivity|].
  apply (enrich_panel_no_layout_row no_str_to_float plot_flip_built
           (mapping flipped_1) extracted_2 [PyInt 1] [PyInt 1]);
    try (vm_compute; reflexivity).
  constructor; [reflexivity | constructor].
Defined.

Lemma enrich_panel_log_without_base_witness :
  _is_log_trans (transform "log1p_trans" None) = true
  ∧ enrich_panel no_str_to_float plot_log1p wt_mpg extracted_1
    = Raise (AttributeError "base").
Proof.
  split; [reflexivity|].
  apply (enrich_panel_log_without_base no_str_to_float plot_log1p wt_mpg
           extracted_1 (set_mapping wt_mpg extracted_1) layout_table_single
           (scale_of (transform "log1p_trans" None))
           (scale_of (transform "identity_trans" None)));
    vm_compute; reflexivity.
Defined.

Lemma enrich_panel_vars_presence_witness :
  get_coordmap_plotnine no_str_to_float build 1%positive 1%positive store
  = (Ok (Some enriched_grid), store_after_grid)
  ∧ (∃ d, panel_vars enriched_2 = Some d
          ∧ is_Some (d !! "panelvar1") ∧ is_Some (d !! "panelvar2")
          ∧ d !! "x" = None).
Proof.
  split; [vm_compute; reflexivity|].
  destruct (enrich_panel_vars_presence no_str_to_float build store store_after_grid
              1%positive 1%positive enriched_grid 1%nat enriched_2)
    as (_ & Hkeys); try (vm_compute; reflexivity).
  eexists. split; [reflexivity|].
  specialize (Hkeys _ eq_refl).
  split; [|split].
  - apply Hkeys. split; [by left | by eexists].
  - apply Hkeys. split; [by right | by eexists].
  - apply eq_None_not_Some. intros Hx. apply Hkeys in Hx as [[Hx|Hx] _]; discriminate Hx.
Defined.

Lemma get_coordmap_positions_and_mapping_witness :
  get_coordmap fig_grid = Some extracted_grid
  ∧ row extracted_2 = 1 ∧ col extracted_2 = 2
  ∧ mapping extracted_2 !! "x" = Some PyNone
  ∧ panel_vars extracted_2 = None.
Proof.
  split; [vm_compute; reflexivity|].
  destruct (get_coordmap_positions_and_mapping fig_grid extracted_grid 1%nat axes_2
              extracted_2) as (Hrow & Hcol & Hx & _ & _ & Hpv);
    try (vm_compute; reflexivity).
  repeat split; assumption.
Defined.

(** ** A paneling variable with string values *)

Section StringValues.

Variable str_to_float : string → option float.

(** A paneling variable whose value in the panel's layout row is a string
    that [float] does not parse (a plot faceted by a categorical variable):
    the loop body raises [ValueError]. *)
Theorem enrich_panel_string_value (p : PlotnineFigure)
    (mappings : gmap string pyval) (q0 : CoordmapPanel) (layout_row : DataFrame)
    (name s : string) (c : list pyval) :
  get_layout_row p (panel q0) = Ok layout_row →
  mappings !! "panelvar1" = Some (PyStr name) →
  layout_row !! name = Some (PyStr s :: c) →
  str_to_float s = None →
  enrich_panel str_to_float p mappings q0 = Raise ValueError.
Proof.
  intros Hrow Hname Hcol Hs.
  assert (Hpv : get_panel_vars str_to_float layout_row (set_mapping mappings q0)
                = Raise ValueError).
  { unfold get_panel_vars, panelvar_value, df_getitem, dict_getitem. simpl.
    rewrite Hname. simpl. rewrite Hcol. simpl. by rewrite Hs. }
  unfold enrich_panel. cbv zeta.
  change (panel (set_mapping mappings q0)) with (panel q0).
  rewrite Hrow. simpl. by rewrite Hpv.
Qed.

End StringValues.

Module StringExample.

(** A plot faceted by [class], whose values are names. *)
Definition layout_table_class : DataFrame :=
  list_to_map
    [("PANEL", [PyInt 1]); ("SCALE_X", [PyInt 1]); ("SCALE_Y", [PyInt 1]);
     ("class", [PyStr "compact"])].

Definition plot_by_class : PlotnineFigure :=
  {| ggplot.mapping := wt_mpg;
     ggplot.layout :=
       {| Layout.layout := layout_table_class;
          Layout.panel_scales_x := [scale_of (transform "identity_trans" None)];
          Layout.panel_scales_y := [scale_of (transform "identity_trans" None)];
          Layout.coord :=
            {| coord_type_name := "coord_cartesian"; trans_x := None; trans_y := None |};
          Layout.facet :=
            {| facet_type_name := "facet_wrap";
               cols := None; rows := None; vars := Some ["class"] |} |} |}.

Definition class_mapping : gmap string pyval :=
  <["panelvar1" := PyStr "class"]> wt_mpg.

End StringExample.

Import StringExample.

Lemma enrich_panel_string_value_witness :
  _get_mappings plot_by_class = Ok class_mapping
  ∧ enrich_panel no_str_to_float plot_by_class class_mapping extracted_1
    = Raise ValueError.
Proof.
  split; [vm_compute; reflexivity|].
  apply (enrich_panel_string_value no_str_to_float plot_by_class class_mapping
           extracted_1 layout_table_class "class" "compact" []);
    vm_compute; reflexivity.
Defined.
